(** * Truck trajectory simulation: resampling, fallback routing and speeds

    A shallow embedding of [src/routing.py] and [src/routing_osrm_api.py]
    (class [TruckRouting]) together with the properties their specification
    states.

    Python floats are IEEE 754 binary64 numbers; they are modelled by the
    [spec_float] type of the standard library with [prec = 53] and
    [emax = 1024], so that every rounding the program performs is performed
    by the model as well.  Python integers are unbounded and modelled by [Z].
    Exceptions are modelled by an error monad. *)

From Stdlib Require Import ZArith Bool String Ascii List Lia.
From Stdlib Require Import Floats.SpecFloat.
Import ListNotations.

#[local] Set Warnings "-register-all".
Local Open Scope Z_scope.

(* ===================================================================== *)
(** * Exceptions and the error monad *)
(* ===================================================================== *)

(** The exception classes the two source files raise or can meet. *)
Inductive exn : Type :=
| ValueError (msg : string)
| RuntimeError (msg : string)
| RequestException (msg : string)
| ZeroDivisionError
| OverflowError
| IndexError
| KeyError
| TypeError
| AttributeError.

Inductive result (A : Type) : Type :=
| Ok (a : A)
| Raise (e : exn).

Arguments Ok {A} a.
Arguments Raise {A} e.

Definition bind {A B : Type} (c : result A) (k : A -> result B) : result B :=
  match c with
  | Ok a => k a
  | Raise e => Raise e
  end.

Declare Scope py_scope.
Delimit Scope py_scope with py.
Notation "x <- c ;; k" := (bind c (fun x => k))
  (at level 61, c at next level, right associativity) : py_scope.
Notation "' pat <- c ;; k" := (bind c (fun x => match x with pat => k end))
  (at level 61, pat pattern, c at next level, right associativity) : py_scope.
Local Open Scope py_scope.

(** A [for] loop whose body may raise: the body threads the loop state. *)
Fixpoint for_each {S A : Type} (body : S -> A -> result S) (l : list A) (s : S)
  : result S :=
  match l with
  | [] => Ok s
  | a :: l' => s' <- body s a ;; for_each body l' s'
  end.

(** A comprehension whose element expression may raise. *)
Fixpoint map_result {A B : Type} (f : A -> result B) (l : list A)
  : result (list B) :=
  match l with
  | [] => Ok []
  | a :: l' => b <- f a ;; bs <- map_result f l' ;; Ok (b :: bs)
  end.

(** [range(n)]: the integers [0, 1, ..., n-1]; empty when [n <= 0]. *)
Definition py_range (n : Z) : list Z :=
  map Z.of_nat (seq 0 (Z.to_nat n)).

(** [len(l)] *)
Definition len {A : Type} (l : list A) : Z := Z.of_nat (List.length l).

(** [l[i]]: negative indices count from the end, anything outside
    [-len(l), len(l)) raises IndexError. *)
Definition getitem {A : Type} (l : list A) (i : Z) : result A :=
  let j := if i <? 0 then i + len l else i in
  if j <? 0 then Raise IndexError
  else match nth_error l (Z.to_nat j) with
       | Some a => Ok a
       | None => Raise IndexError
       end.

(* ===================================================================== *)
(** * Python numbers: binary64 floats and unbounded integers *)
(* ===================================================================== *)

Definition prec : Z := 53.
Definition emax : Z := 1024.

Definition float : Type := spec_float.

Definition fadd : float -> float -> float := SFadd prec emax.
Definition fsub : float -> float -> float := SFsub prec emax.
Definition fmul : float -> float -> float := SFmul prec emax.

Definition is_zero (x : float) : bool :=
  match x with S754_zero _ => true | _ => false end.

Definition is_infinity (x : float) : bool :=
  match x with S754_infinity _ => true | _ => false end.

Definition is_finite (x : float) : bool :=
  match x with S754_zero _ | S754_finite _ _ _ => true | _ => false end.

(** The integer [z] as an unrounded binary number [z * 2^0]. *)
Definition exact_int (z : Z) : float :=
  match z with
  | Z0 => S754_zero false
  | Zpos p => S754_finite false p 0
  | Zneg p => S754_finite true p 0
  end.

(** [float(z)]: the nearest binary64 number, ties to even; OverflowError when
    [z] is too large. *)
Definition float_of_int (z : Z) : result float :=
  let x := binary_normalize prec emax z 0 false in
  if is_infinity x then Raise OverflowError else Ok x.

(** [x / y] on floats: ZeroDivisionError on a zero divisor. *)
Definition float_div (x y : float) : result float :=
  if is_zero y then Raise ZeroDivisionError else Ok (SFdiv prec emax x y).

(** [a / b] on integers (true division): the exact quotient rounded once to
    the nearest binary64 number. *)
Definition int_true_div (a b : Z) : result float :=
  if b =? 0 then Raise ZeroDivisionError
  else
    let q := SFdiv prec emax (exact_int a) (exact_int b) in
    if is_infinity q then Raise OverflowError else Ok q.

(** [int(x)] on a float: truncation towards zero. *)
Definition int_of_float (x : float) : result Z :=
  match x with
  | S754_zero _ => Ok 0
  | S754_finite s m e => Ok (cond_Zopp s (Z.shiftl (Zpos m) e))
  | S754_infinity _ => Raise OverflowError
  | S754_nan => Raise (ValueError "cannot convert float NaN to integer")
  end.

(** A Python number is an [int] or a [float]. *)
Inductive num : Type :=
| Int (z : Z)
| Float (x : float).

Definition to_float (a : num) : result float :=
  match a with
  | Int z => float_of_int z
  | Float x => Ok x
  end.

(** [a * b] *)
Definition num_mul (a b : num) : result num :=
  match a, b with
  | Int x, Int y => Ok (Int (x * y))
  | _, _ => x <- to_float a ;; y <- to_float b ;; Ok (Float (fmul x y))
  end.

(** [a / b] *)
Definition num_div (a b : num) : result num :=
  match a, b with
  | Int x, Int y => q <- int_true_div x y ;; Ok (Float q)
  | _, _ => x <- to_float a ;; y <- to_float b ;; q <- float_div x y ;; Ok (Float q)
  end.

(** [int(a)] *)
Definition num_int (a : num) : result Z :=
  match a with
  | Int z => Ok z
  | Float x => int_of_float x
  end.

(* ===================================================================== *)
(** * The resampler: [sample_route_to_minutes] *)
(* ===================================================================== *)

Section Resampler.
Context {A : Type}.

(** The value of [ratio] for one minute of the loop:
    [minute / total_duration_minutes if total_duration_minutes > 0 else 0]. *)
Definition minute_ratio (minute total_duration_minutes : Z) : result num :=
  if 0 <? total_duration_minutes
  then num_div (Int minute) (Int total_duration_minutes)
  else Ok (Int 0).

(** The two assignments to [point_idx]. *)
Definition point_idx (n minute total_duration_minutes : Z) : result Z :=
  ratio <- minute_ratio minute total_duration_minutes ;;
  x <- num_mul ratio (Int (n - 1)) ;;
  point_idx <- num_int x ;;
  Ok (Z.min point_idx (n - 1)).

(** [sample_route_to_minutes], identical in both source files. *)
Definition sample_route_to_minutes (route_points : list A)
           (total_duration_minutes : Z) : result (list A) :=
  if len route_points <=? 1 then Ok route_points
  else
    for_each
      (fun sampled_points minute =>
         i <- point_idx (len route_points) minute total_duration_minutes ;;
         p <- getitem route_points i ;;
         Ok (sampled_points ++ [p]))
      (py_range (total_duration_minutes + 1))
      [].
End Resampler.

(* ===================================================================== *)
(** * The fallback interpolator: [interpolate_route] *)
(* ===================================================================== *)

(** [x * r] for a float [x] and a number [r]. *)
Definition fmul_num (x : float) (r : num) : result float :=
  y <- to_float r ;; Ok (fmul x y).

(** [x / k] and [x * k] for a float [x] and an integer literal [k]. *)
Definition fdiv_int (x : float) (k : Z) : result float :=
  y <- float_of_int k ;; float_div x y.

Definition fmul_int (x : float) (k : Z) : result float :=
  y <- float_of_int k ;; Ok (fmul x y).

(** A coordinate is the tuple [(lat, lon)]. *)
Definition point : Type := float * float.

(** [interpolate_route], identical in both source files. *)
Definition interpolate_route (start_lat start_lon end_lat end_lon : float)
           (total_minutes : Z) : result (list point) :=
  for_each
    (fun route_points minute =>
       ratio <- minute_ratio minute total_minutes ;;
       dlat <- fmul_num (fsub end_lat start_lat) ratio ;;
       let lat := fadd start_lat dlat in
       dlon <- fmul_num (fsub end_lon start_lon) ratio ;;
       let lon := fadd start_lon dlon in
       Ok (route_points ++ [(lat, lon)]))
    (py_range (total_minutes + 1))
    [].

(* ===================================================================== *)
(** * The distance primitive and the speed deriver *)
(* ===================================================================== *)

(** The functions of Python's [math] module and the float power operator,
    which the program calls and does not define.  Those that can raise
    (ValueError on a domain error, OverflowError) return a [result]. *)
Class MathLib : Type := {
  math_radians : float -> float;
  math_sin : float -> result float;
  math_cos : float -> result float;
  math_asin : float -> result float;
  math_sqrt : float -> result float;
  float_pow : float -> Z -> result float
}.

Section Distance.
Context {M : MathLib}.

(** [haversine_distance], identical in both source files. *)
Definition haversine_distance (lat1 lon1 lat2 lon2 : float) : result float :=
  let R := 6371 in
  let lat1 := math_radians lat1 in
  let lon1 := math_radians lon1 in
  let lat2 := math_radians lat2 in
  let lon2 := math_radians lon2 in
  let dlat := fsub lat2 lat1 in
  let dlon := fsub lon2 lon1 in
  hlat <- fdiv_int dlat 2 ;;
  slat <- math_sin hlat ;;
  slat2 <- float_pow slat 2 ;;
  c1 <- math_cos lat1 ;;
  c2 <- math_cos lat2 ;;
  hlon <- fdiv_int dlon 2 ;;
  slon <- math_sin hlon ;;
  slon2 <- float_pow slon 2 ;;
  let a := fadd slat2 (fmul (fmul c1 c2) slon2) in
  r <- math_sqrt a ;;
  t <- math_asin r ;;
  k <- float_of_int (2 * R) ;;
  Ok (fmul k t).

(** The body of the loop of [calculate_per_minute_speeds] ([routing.py]):
    the distance formula is written out a second time there. *)
Definition speed_between (route_points : list point) (i : Z) : result float :=
  ' (lat1, lon1) <- getitem route_points i ;;
  ' (lat2, lon2) <- getitem route_points (i + 1) ;;
  let R := 6371 in
  let lat1 := math_radians lat1 in
  let lon1 := math_radians lon1 in
  let lat2 := math_radians lat2 in
  let lon2 := math_radians lon2 in
  let dlat := fsub lat2 lat1 in
  let dlon := fsub lon2 lon1 in
  hlat <- fdiv_int dlat 2 ;;
  slat <- math_sin hlat ;;
  slat2 <- float_pow slat 2 ;;
  c1 <- math_cos lat1 ;;
  c2 <- math_cos lat2 ;;
  hlon <- fdiv_int dlon 2 ;;
  slon <- math_sin hlon ;;
  slon2 <- float_pow slon 2 ;;
  let a := fadd slat2 (fmul (fmul c1 c2) slon2) in
  r <- math_sqrt a ;;
  t <- math_asin r ;;
  k <- float_of_int (2 * R) ;;
  let distance_km := fmul k t in
  fmul_int distance_km 60.

(** [calculate_per_minute_speeds], applied to [trajectory['route_points']]. *)
Definition calculate_per_minute_speeds (route_points : list point)
  : result (list float) :=
  for_each
    (fun speeds i =>
       speed_kmh <- speed_between route_points i ;;
       Ok (speeds ++ [speed_kmh]))
    (py_range (len route_points - 1))
    [].
End Distance.

(** [l[a:b]] with Python's treatment of negative and oversized bounds. *)
Definition slice_bound (n i : Z) : Z :=
  let j := if i <? 0 then i + n else i in
  Z.max 0 (Z.min n j).

Definition py_slice {A : Type} (l : list A) (a b : Z) : list A :=
  let a' := slice_bound (len l) a in
  let b' := slice_bound (len l) b in
  firstn (Z.to_nat (b' - a')) (skipn (Z.to_nat a') l).

Section RollingMean.
(** The built-in [sum] on a non-empty list of floats.  Its rounding differs
    between interpreter versions, so it is a parameter. *)
Variable float_sum : list float -> float.

(** [sum(l)]: the integer [0] on the empty list. *)
Definition py_sum (l : list float) : num :=
  match l with
  | [] => Int 0
  | _ => Float (float_sum l)
  end.

(** [sum(window_speeds) / len(window_speeds)] *)
Definition window_mean (window_speeds : list float) : result float :=
  q <- num_div (py_sum window_speeds) (Int (len window_speeds)) ;;
  to_float q.

(** [calculate_rolling_mean_speeds] ([routing.py]); [//] is [Z.div]. *)
Definition calculate_rolling_mean_speeds (speeds : list float) (window : Z)
  : result (list float) :=
  if len speeds <? window then Ok speeds
  else
    for_each
      (fun rolling_means i =>
         let start_idx := Z.max 0 (i - window / 2) in
         let end_idx := Z.min (len speeds) (i + window / 2 + 1) in
         let window_speeds := py_slice speeds start_idx end_idx in
         mean <- window_mean window_speeds ;;
         Ok (rolling_means ++ [mean]))
      (py_range (len speeds))
      [].
End RollingMean.

(* ===================================================================== *)
(** * Reverse geocoding: [reverse_geocode_state] *)
(* ===================================================================== *)

(** Decoded JSON, as [response.json()] returns it. *)
Inductive json : Type :=
| JNone
| JBool (b : bool)
| JNum (n : num)
| JStr (s : string)
| JList (l : list json)
| JDict (d : list (string * json)).

(** Truth value of a decoded JSON value. *)
Definition truthy (j : json) : bool :=
  match j with
  | JNone => false
  | JBool b => b
  | JNum (Int z) => negb (z =? 0)
  | JNum (Float x) => negb (is_zero x)
  | JStr s => negb (String.eqb s "")
  | JList l => match l with [] => false | _ => true end
  | JDict d => match d with [] => false | _ => true end
  end.

Fixpoint lookup {V : Type} (k : string) (d : list (string * V)) : option V :=
  match d with
  | [] => None
  | (k', v) :: d' => if String.eqb k k' then Some v else lookup k d'
  end.

(** [obj.get(key, default)]: only a dict has the method. *)
Definition dict_get (obj : json) (key : string) (default : json) : result json :=
  match obj with
  | JDict d => Ok match lookup key d with Some v => v | None => default end
  | _ => Raise AttributeError
  end.

(** The table [state_mapping]. *)
Definition state_mapping : list (string * string) :=
  [ ("california", "CA"); ("texas", "TX"); ("florida", "FL");
    ("new york", "NY"); ("pennsylvania", "PA"); ("illinois", "IL");
    ("georgia", "GA"); ("massachusetts", "MA"); ("washington", "DC") ]%string.

(** What [requests.get], [raise_for_status] and [response.json()] produce. *)
Inductive http_reply : Type :=
| HttpFailed (e : exn)
| HttpBody (data : json).

(** ASCII case mapping, the instance used on concrete inputs. *)
Definition ascii_lower (c : ascii) : ascii :=
  let n := nat_of_ascii c in
  if andb (Nat.leb 65 n) (Nat.leb n 90) then ascii_of_nat (n + 32) else c.

Definition ascii_upper (c : ascii) : ascii :=
  let n := nat_of_ascii c in
  if andb (Nat.leb 97 n) (Nat.leb n 122) then ascii_of_nat (n - 32) else c.

Fixpoint string_map (f : ascii -> ascii) (s : string) : string :=
  match s with
  | EmptyString => EmptyString
  | String c s' => String (f c) (string_map f s')
  end.

Section Geocode.
(** [str.lower] and [str.upper]. *)
Variables str_lower str_upper : string -> string.

(** The value of the variable [state] before the table lookup:
    [address.get('state') or address.get('country_code', '').upper()]. *)
Definition geocoded_state (data : json) : result json :=
  address <- dict_get data "address" (JDict []) ;;
  s <- dict_get address "state" JNone ;;
  if truthy s then Ok s
  else
    c <- dict_get address "country_code" (JStr "") ;;
    match c with
    | JStr cc => Ok (JStr (str_upper cc))
    | _ => Raise AttributeError
    end.

(** The body of the [try] block. *)
Definition reverse_geocode_try (reply : http_reply) : result string :=
  match reply with
  | HttpFailed e => Raise e
  | HttpBody data =>
      state <- geocoded_state data ;;
      match state with
      | JStr state =>
          match lookup (str_lower state) state_mapping with
          | Some code => Ok code
          | None => Ok (if negb (String.eqb state "") then state else "UNKNOWN"%string)
          end
      | _ => Raise AttributeError
      end
  end.

(** [reverse_geocode_state], identical in both source files: every
    exception of the [try] block is turned into ['UNKNOWN']. *)
Definition reverse_geocode_state (reply : http_reply) : string :=
  match reverse_geocode_try reply with
  | Ok s => s
  | Raise _ => "UNKNOWN"%string
  end.
End Geocode.

(* ===================================================================== *)
(** * Route fetching and [generate_trajectory] *)
(* ===================================================================== *)

(** An entry of the region registry [self.metros]. *)
Record metro : Type := {
  metro_name : string;
  metro_lat : float;
  metro_lon : float
}.

(** The dictionary the route fetchers return. *)
Record route_data : Type := {
  route_points : list point;
  distance_meters : float;
  duration_seconds : float;
  distance_km : float;
  duration_hours : float
}.

(** The dictionary [generate_trajectory] returns. *)
Record trajectory : Type := {
  start_metro : string;
  end_metro : string;
  traj_distance_km : float;
  duration_minutes : Z;
  avg_speed_kmh : float;
  traj_route_points : list point;
  osrm_used : option bool
}.

(** One route of an OSRM answer: [geometry.coordinates] holds [lon, lat]
    pairs. *)
Record osrm_route : Type := {
  osrm_coordinates : list (float * float);
  osrm_distance : float;
  osrm_duration : float
}.

(** What the HTTP round trip to OSRM produces inside the [try] block: a
    [RequestException] (no connection, timeout, HTTP error status), another
    exception while decoding the body, or the decoded fields. *)
Inductive osrm_reply : Type :=
| OsrmRequestFailed (msg : string)
| OsrmMalformed (e : exn)
| OsrmAnswer (code : string) (routes : list osrm_route) (repr : string).

(** One leg of a Valhalla answer, its shape already decoded by [polyline]. *)
Record valhalla_leg : Type := {
  leg_shape : list (float * float);
  leg_length : float;
  leg_time : float
}.

Inductive valhalla_reply : Type :=
| ValhallaRequestFailed (msg : string)
| ValhallaMalformed (e : exn)
| ValhallaAnswer (has_trip : bool) (legs : list valhalla_leg) (repr : string).

(** [str(e)] *)
Definition exn_str (e : exn) : string :=
  match e with
  | ValueError msg | RuntimeError msg | RequestException msg => msg
  | ZeroDivisionError => "division by zero"
  | OverflowError => "overflow"
  | IndexError => "list index out of range"
  | KeyError => "key"
  | TypeError => "type"
  | AttributeError => "attribute"
  end%string.

(** One iteration of the scan of the registry at the start of
    [generate_trajectory]; the state of the loop is the pair
    [(start_coords, end_coords)]. *)
Definition scan_step (start_metro end_metro : string)
           (coords : option point * option point) (m : metro)
  : option point * option point :=
  let '(start_coords, end_coords) := coords in
  if String.eqb (metro_name m) start_metro
  then (Some (metro_lat m, metro_lon m), end_coords)
  else if String.eqb (metro_name m) end_metro
       then (start_coords, Some (metro_lat m, metro_lon m))
       else (start_coords, end_coords).

Definition scan_metros (metros : list metro) (start_metro end_metro : string)
  : option point * option point :=
  fold_left (scan_step start_metro end_metro) metros (None, None).

Definition metro_not_found (start_metro end_metro : string) : exn :=
  ValueError ("Metro region not found: " ++ start_metro ++ " or " ++ end_metro).

(** The part of the [try] block of [get_osrm_route] that comes after the
    HTTP round trip, identical in both source files. *)
Definition osrm_try (reply : osrm_reply) : result route_data :=
  match reply with
  | OsrmRequestFailed msg => Raise (RequestException msg)
  | OsrmMalformed e => Raise e
  | OsrmAnswer code routes repr =>
      if orb (negb (String.eqb code "Ok"))
             (match routes with [] => true | _ => false end)
      then Raise (ValueError ("OSRM didn't find the route: " ++ repr))
      else
        route <- getitem routes 0 ;;
        let geometry := osrm_coordinates route in
        let route_points := map (fun coord => (snd coord, fst coord)) geometry in
        km <- fdiv_int (osrm_distance route) 1000 ;;
        hours <- fdiv_int (osrm_duration route) 3600 ;;
        Ok {| route_points := route_points;
              distance_meters := osrm_distance route;
              duration_seconds := osrm_duration route;
              distance_km := km;
              duration_hours := hours |}
  end.

(** The end of [generate_trajectory], shared by both files up to the
    [osrm_used] key. *)
Definition finish_trajectory (start_metro end_metro : string)
           (avg_speed_kmh : float) (route : route_data) (used : option bool)
  : result trajectory :=
  m <- fmul_int (duration_hours route) 60 ;;
  total_minutes <- int_of_float m ;;
  sampled_route <- sample_route_to_minutes (route_points route) total_minutes ;;
  Ok {| start_metro := start_metro;
        end_metro := end_metro;
        traj_distance_km := distance_km route;
        duration_minutes := total_minutes;
        avg_speed_kmh := avg_speed_kmh;
        traj_route_points := sampled_route;
        osrm_used := used |}.

(** ** [src/routing.py]: a failed router call is raised to the caller *)
Module Routing.
Section WithRouter.
Variable metros : list metro.
Variable valhalla_url : option string.
Variable router_type : string.
(** The answers of the two services to a request. *)
Variable osrm : point -> point -> osrm_reply.
Variable valhalla : point -> point -> valhalla_reply.
(** The value [random.uniform(70, 95)] draws. *)
Variable random_uniform : float.

Definition valhalla_try (reply : valhalla_reply) : result route_data :=
  match valhalla_url with
  | None => Raise (ValueError "Valhalla URL not configured")
  | Some _ =>
      match reply with
      | ValhallaRequestFailed msg => Raise (RequestException msg)
      | ValhallaMalformed e => Raise e
      | ValhallaAnswer has_trip legs repr =>
          if orb (negb has_trip) (match legs with [] => true | _ => false end)
          then Raise (ValueError ("Valhalla didn't find the route: " ++ repr))
          else
            leg <- getitem legs 0 ;;
            m <- fmul_int (leg_length leg) 1000 ;;
            hours <- fdiv_int (leg_time leg) 3600 ;;
            Ok {| route_points := leg_shape leg;
                  distance_meters := m;
                  duration_seconds := leg_time leg;
                  distance_km := leg_length leg;
                  duration_hours := hours |}
      end
  end.

Definition get_valhalla_route (start_lat start_lon end_lat end_lon : float)
  : result route_data :=
  match valhalla_try (valhalla (start_lat, start_lon) (end_lat, end_lon)) with
  | Ok r => Ok r
  | Raise (RequestException msg) =>
      Raise (RuntimeError ("Valhalla API failed: " ++ msg))
  | Raise e => Raise (RuntimeError ("Valhalla routing failed: " ++ exn_str e))
  end.

Definition get_osrm_route (start_lat start_lon end_lat end_lon : float)
  : result route_data :=
  match osrm_try (osrm (start_lat, start_lon) (end_lat, end_lon)) with
  | Ok r => Ok r
  | Raise (RequestException msg) =>
      Raise (RuntimeError ("OSRM API failed: " ++ msg))
  | Raise e => Raise (RuntimeError ("OSRM routing failed: " ++ exn_str e))
  end.

Definition generate_trajectory (start_metro end_metro : string)
           (avg_speed_kmh : option float) : result trajectory :=
  let avg_speed_kmh :=
    match avg_speed_kmh with Some v => v | None => random_uniform end in
  match scan_metros metros start_metro end_metro with
  | (Some (start_lat, start_lon), Some (end_lat, end_lon)) =>
      route_data <-
        (if String.eqb router_type "valhalla"
         then get_valhalla_route start_lat start_lon end_lat end_lon
         else get_osrm_route start_lat start_lon end_lat end_lon) ;;
      finish_trajectory start_metro end_metro avg_speed_kmh route_data None
  | _ => Raise (metro_not_found start_metro end_metro)
  end.
End WithRouter.
End Routing.

(** ** [src/routing_osrm_api.py]: a failed router call falls back to the
    straight line *)
Module RoutingOsrmApi.
Section WithRouter.
Context {M : MathLib}.
Variable metros : list metro.
Variable osrm : point -> point -> osrm_reply.
Variable random_uniform : float.

Definition _fallback_linear_route (start_lat start_lon end_lat end_lon : float)
  : result route_data :=
  distance_km <- haversine_distance start_lat start_lon end_lat end_lon ;;
  duration_hours <- fdiv_int distance_km 80 ;;
  m <- fmul_int duration_hours 60 ;;
  duration_minutes <- int_of_float m ;;
  route_points <-
    interpolate_route start_lat start_lon end_lat end_lon duration_minutes ;;
  meters <- fmul_int distance_km 1000 ;;
  seconds <- fmul_int duration_hours 3600 ;;
  Ok {| route_points := route_points;
        distance_meters := meters;
        duration_seconds := seconds;
        distance_km := distance_km;
        duration_hours := duration_hours |}.

Definition get_osrm_route (start_lat start_lon end_lat end_lon : float)
  : result route_data :=
  match osrm_try (osrm (start_lat, start_lon) (end_lat, end_lon)) with
  | Ok r => Ok r
  | Raise _ => _fallback_linear_route start_lat start_lon end_lat end_lon
  end.

Definition generate_trajectory (start_metro end_metro : string)
           (avg_speed_kmh : option float) : result trajectory :=
  let avg_speed_kmh :=
    match avg_speed_kmh with Some v => v | None => random_uniform end in
  match scan_metros metros start_metro end_metro with
  | (Some (start_lat, start_lon), Some (end_lat, end_lon)) =>
      route_data <- get_osrm_route start_lat start_lon end_lat end_lon ;;
      finish_trajectory start_metro end_metro avg_speed_kmh route_data
                        (Some true)
  | _ => Raise (metro_not_found start_metro end_metro)
  end.
End WithRouter.
End RoutingOsrmApi.

(* ===================================================================== *)
(** * The resampler as the specification words it *)
(* ===================================================================== *)

(** The index the specification prescribes for minute [m]:
    [floor(ratio * (len(input) - 1))] for the ratio [m / total_minutes],
    clamped to the last valid index.  The arithmetic is exact:
    [floor((m / T) * (n - 1))] is the integer quotient of [m * (n - 1)] by
    [T]. *)
Definition spec_index (n m total_minutes : Z) : Z :=
  Z.min ((m * (n - 1)) / total_minutes) (n - 1).

(** The resampler of the specification: an input of at most one point is
    returned unchanged; for [total_minutes <= 0] every output point is the
    first input point; otherwise the point of minute [m] is the input point
    at [spec_index]. *)
Definition resample_spec {A : Type} (input : list A) (total_minutes : Z)
  : list A :=
  match input with
  | [] => input
  | first :: _ =>
      if len input <=? 1 then input
      else if total_minutes <=? 0
           then repeat first (Z.to_nat (total_minutes + 1))
           else map (fun m =>
                       nth (Z.to_nat (spec_index (len input) m total_minutes))
                           input first)
                    (py_range (total_minutes + 1))
  end.

(** The minutes at which the index of the code is not the index of the
    specification, for [n] input points. *)
Definition inexact_minutes (n total_minutes : Z) : list Z :=
  filter (fun m => match point_idx n m total_minutes with
                   | Ok i => negb (i =? spec_index n m total_minutes)
                   | Raise _ => true
                   end)
         (py_range (total_minutes + 1)).

(** [int((k / m) * m) == k] for every minute [k] of [range(m + 1)]: the
    index computation of the resampler is exact on a sequence of [m + 1]
    points. *)
Definition resample_exact (m : Z) : bool :=
  forallb (fun k => match point_idx (m + 1) k m with
                    | Ok i => i =? k
                    | Raise _ => false
                    end)
          (py_range (m + 1)).

(** The float [1.0]. *)
Definition one : float := S754_finite false 4503599627370496 (-52).

(** A float that is [+0.0] or positive and below [2^B]. *)
Definition small_nonneg (B : Z) (x : float) : Prop :=
  x = S754_zero false \/
  exists m e, x = S754_finite false m e /\ Zdigits2 (Zpos m) + e <= B /\ e <= B.

(** A float whose sign bit is clear (NaN has none). *)
Definition sign_false (x : float) : Prop :=
  match x with
  | S754_zero s | S754_infinity s | S754_finite s _ _ => s = false
  | S754_nan => True
  end.


(* ===================================================================== *)
(** * Concrete instances used on examples *)
(* ===================================================================== *)

(** [sum] as a left-to-right accumulation. *)
Definition float_sum_left (l : list float) : float :=
  fold_left fadd l (S754_zero false).

(** Case mapping on ASCII strings. *)
Definition lower_ascii : string -> string := string_map ascii_lower.
Definition upper_ascii : string -> string := string_map ascii_upper.

(** A Nominatim answer whose address names a state outside the table. *)
Definition ohio_reply : http_reply :=
  HttpBody (JDict [("address"%string, JDict [("state"%string, JStr "Ohio")])]).

(** A Nominatim answer whose address names a state of the table. *)
Definition texas_reply : http_reply :=
  HttpBody (JDict [("address"%string,
                    JDict [("state"%string, JStr "Texas");
                           ("country_code"%string, JStr "us")])]).

(** Structural equality of floats, used to look a value up in a table. *)
Definition float_same (x y : float) : bool :=
  match x, y with
  | S754_zero s, S754_zero s' => Bool.eqb s s'
  | S754_infinity s, S754_infinity s' => Bool.eqb s s'
  | S754_nan, S754_nan => true
  | S754_finite s m e, S754_finite s' m' e' =>
      andb (Bool.eqb s s') (andb (Pos.eqb m m') (Z.eqb e e'))
  | _, _ => false
  end.

Fixpoint tabulated (table : list (float * float)) (x : float) : option float :=
  match table with
  | [] => None
  | (a, b) :: table' => if float_same a x then Some b else tabulated table' x
  end.

(** The values CPython's [math] module returns at the arguments that occur
    when the distance from (40.0, -75.0) to (40.0, -74.0), to (40.0, -74.99)
    and to (40.0, -74.65) is computed. *)
Definition radians_table : list (float * float) :=
  [ (S754_finite false 5629499534213120 (-47),   (* 40.0 *)
     S754_finite false 6288211335136391 (-53));
    (S754_finite true 5277655813324800 (-46),    (* -75.0 *)
     S754_finite true 5895198126690367 (-52));
    (S754_finite true 5207287069147136 (-46),    (* -74.0 *)
     S754_finite true 5816595485001162 (-52));
    (S754_finite true 5276952125883023 (-46),    (* -74.99 *)
     S754_finite true 5894412100273474 (-52));
    (S754_finite true 5253026752862618 (-46),    (* -74.65 *)
     S754_finite true 5867687202099146 (-52)) ].

Definition sin_table : list (float * float) :=
  [ (S754_zero false, S754_zero false);
    (S754_finite false 5030569068109120 (-59),
     S754_finite false 5030505218395176 (-59));
    (S754_finite false 6439128407187456 (-66),
     S754_finite false 6439128399014661 (-66));
    (S754_finite false 7042796695352576 (-61),
     S754_finite false 7042785745090047 (-61)) ].

Definition cos_table : list (float * float) :=
  [ (S754_finite false 6288211335136391 (-53),
     S754_finite false 6899914937159737 (-53)) ].

Definition asin_table : list (float * float) :=
  [ (S754_finite false 7707181137265291 (-60),
     S754_finite false 7707238541601820 (-60));
    (S754_finite false 4932658528594782 (-66),
     S754_finite false 4932658532268726 (-66));
    (S754_finite false 5395086884103782 (-61),
     S754_finite false 5395091806603249 (-61)) ].

Definition sqrt_table : list (float * float) :=
  [ (S754_finite false 6594795940741739 (-67),
     S754_finite false 7707181137265291 (-60));
    (S754_finite false 5402593963248235 (-80),
     S754_finite false 4932658528594782 (-66));
    (S754_finite false 6463043985999984 (-70),
     S754_finite false 5395086884103782 (-61)) ].

Definition square_table : list (float * float) :=
  [ (S754_zero false, S754_zero false);
    (S754_finite false 5030505218395176 (-59),
     S754_finite false 5619056942474354 (-66));
    (S754_finite false 6439128399014661 (-66),
     S754_finite false 4603248286882645 (-79));
    (S754_finite false 7042785745090047 (-61),
     S754_finite false 5506798467363302 (-69)) ].

Definition from_table (table : list (float * float)) (x : float) : result float :=
  match tabulated table x with
  | Some y => Ok y
  | None => Raise (ValueError "not tabulated")
  end.

(** The [math] module restricted to the tabulated arguments. *)
Definition tabulated_math : MathLib :=
  {| math_radians := fun x => match tabulated radians_table x with
                              | Some y => y
                              | None => S754_nan
                              end;
     math_sin := from_table sin_table;
     math_cos := from_table cos_table;
     math_asin := from_table asin_table;
     math_sqrt := from_table sqrt_table;
     float_pow := fun x k => if k =? 2 then from_table square_table x
                             else Raise (ValueError "not tabulated") |}.

(** A registry of four regions: A and B are those of the specification's
    example, C lies 0.85 km and D 29.8 km east of A. *)
Definition example_metros : list metro :=
  [ {| metro_name := "A";
       metro_lat := S754_finite false 5629499534213120 (-47);
       metro_lon := S754_finite true 5277655813324800 (-46) |};
    {| metro_name := "B";
       metro_lat := S754_finite false 5629499534213120 (-47);
       metro_lon := S754_finite true 5207287069147136 (-46) |};
    {| metro_name := "C";
       metro_lat := S754_finite false 5629499534213120 (-47);
       metro_lon := S754_finite true 5276952125883023 (-46) |};
    {| metro_name := "D";
       metro_lat := S754_finite false 5629499534213120 (-47);
       metro_lon := S754_finite true 5253026752862618 (-46) |} ]%string.

(** A router that cannot be reached. *)
Definition osrm_down : point -> point -> osrm_reply :=
  fun _ _ => OsrmRequestFailed "Connection timed out".

Definition valhalla_down : point -> point -> valhalla_reply :=
  fun _ _ => ValhallaRequestFailed "Connection timed out".

(** The number of minutes the fallback route derives from a distance:
    [int((distance_km / 80) * 60)]. *)
Definition fallback_minutes (distance_km : float) : result Z :=
  duration_hours <- fdiv_int distance_km 80 ;;
  m <- fmul_int duration_hours 60 ;;
  int_of_float m.

(** Python's [==] on floats and on coordinate tuples. *)
Definition float_eq (x y : float) : bool := SFeqb x y.

Definition point_eq (p q : point) : bool :=
  andb (float_eq (fst p) (fst q)) (float_eq (snd p) (snd q)).

(** The coordinates of the four example regions and the distances CPython
    computes from A to the three others (85.18 km, 0.85 km, 29.81 km). *)
Definition point_A : point :=
  (S754_finite false 5629499534213120 (-47), S754_finite true 5277655813324800 (-46)).
Definition point_B : point :=
  (S754_finite false 5629499534213120 (-47), S754_finite true 5207287069147136 (-46)).
Definition point_C : point :=
  (S754_finite false 5629499534213120 (-47), S754_finite true 5276952125883023 (-46)).
Definition point_D : point :=
  (S754_finite false 5629499534213120 (-47), S754_finite true 5253026752862618 (-46)).

Definition distance_AB : float := S754_finite false 5993996185125146 (-46).
Definition distance_AC : float := S754_finite false 7672355348897474 (-53).
Definition distance_AD : float := S754_finite false 8391633276335278 (-48).

(** The float [80.0], also the value drawn for [avg_speed_kmh] in the
    examples. *)
Definition eighty : float := S754_finite false 5629499534213120 (-46).

(* ===================================================================== *)
(** * Batch classification and the remaining registry functions *)
(* ===================================================================== *)


Section BatchGeocode.
Variables str_lower str_upper : string -> string.
(** The answer of the geocoding service to the [i]-th lookup of a batch. *)
Variable nominatim : Z -> point -> http_reply.
(** [time.sleep(secs)]: it returns after the pause, or raises on a delay it
    rejects. *)
Variable time_sleep : float -> result unit.


End BatchGeocode.





(** A row of [self.states_gdf]: its geometry and what
    [row.get('STATE_NAME', 'UNKNOWN')] finds. *)
Record state_row (G : Type) : Type := {
  row_geometry : G;
  row_state_name : option string
}.

Arguments row_geometry {G} _.
Arguments row_state_name {G} _.

Section Spatial.
Variable G : Type.
(** [geometry.contains(Point(lon, lat))] *)
Variable contains : G -> float -> float -> result bool.
(** [self.states_gdf]: [None] when the boundary file was not found. *)
Variable states_gdf : option (list (state_row G)).

(** The loop of [get_state_for_coordinates] over the rows. *)
Fixpoint first_containing (rows : list (state_row G)) (lon lat : float)
  : result string :=
  match rows with
  | [] => Ok "UNKNOWN"%string
  | row :: rows' =>
      inside <- contains (row_geometry row) lon lat ;;
      if inside
      then Ok match row_state_name row with
              | Some name => name
              | None => "UNKNOWN"%string
              end
      else first_containing rows' lon lat
  end.

(** [get_state_for_coordinates] ([routing.py]) *)
Definition get_state_for_coordinates (lat lon : float) : result string :=
  match states_gdf with
  | None => Ok "UNKNOWN"%string
  | Some rows => first_containing rows lon lat
  end.

(** [batch_spatial_analysis] ([routing.py]) *)
Definition batch_spatial_analysis (coordinates : list point)
  : result (list string) :=
  match states_gdf with
  | None => Ok (repeat "UNKNOWN"%string (List.length coordinates))
  | Some _ =>
      for_each
        (fun states '(lat, lon) =>
           state <- get_state_for_coordinates lat lon ;;
           Ok (states ++ [state]))
        coordinates
        []
  end.
End Spatial.

(** [get_all_metro_names], identical in both source files. *)
Definition get_all_metro_names (metros : list metro) : list string :=
  map metro_name metros.

(** [random.sample(population, 2)], for the two positions [i] and [j] the
    generator draws. *)
Definition random_sample_2 {A : Type} (population : list A) (i j : nat)
  : result (A * A) :=
  if len population <? 2
  then Raise (ValueError "Sample larger than population or is negative")
  else match nth_error population i, nth_error population j with
       | Some a, Some b => Ok (a, b)
       | _, _ => Raise IndexError
       end.

(** [get_random_metro_pair], identical in both source files. *)
Definition get_random_metro_pair (metros : list metro) (i j : nat)
  : result (string * string) :=
  random_sample_2 (map metro_name metros) i j.

(** A trajectory without the [osrm_used] key. *)
Definition without_osrm_used (t : trajectory) : trajectory :=
  {| start_metro := start_metro t;
     end_metro := end_metro t;
     traj_distance_km := traj_distance_km t;
     duration_minutes := duration_minutes t;
     avg_speed_kmh := avg_speed_kmh t;
     traj_route_points := traj_route_points t;
     osrm_used := None |}.

(** The minutes [generate_trajectory] derives from a route duration in
    seconds: [int((duration / 3600) * 60)]. *)
Definition route_minutes (duration : float) : result Z :=
  duration_hours <- fdiv_int duration 3600 ;;
  m <- fmul_int duration_hours 60 ;;
  int_of_float m.

(** The coordinates of the last registry entry with a given name. *)
Definition last_named (metros : list metro) (name : string) : option point :=
  option_map (fun m => (metro_lat m, metro_lon m))
             (find (fun m => String.eqb (metro_name m) name) (rev metros)).


(** An OSRM answer with one route of three coordinates and 150 seconds. *)
Definition example_route : osrm_route :=
  {| osrm_coordinates := [ (snd point_A, fst point_A);
                           (snd point_D, fst point_D);
                           (snd point_B, fst point_B) ];
     osrm_distance := S754_finite false 5853525028372480 (-36);
     osrm_duration := S754_finite false 5277655813324800 (-45) |}.

Definition osrm_up : point -> point -> osrm_reply :=
  fun _ _ => OsrmAnswer "Ok" [example_route] "{...}".

(** A region given by the finitely many points it holds, the geometry used
    on examples. *)
Definition region_contains (region : list point) (lon lat : float) : result bool :=
  Ok (existsb (point_eq (lat, lon)) region).

Definition example_states : list (state_row (list point)) :=
  [ {| row_geometry := [point_B]; row_state_name := Some "New Jersey"%string |};
    {| row_geometry := [point_A; point_C];
       row_state_name := Some "Pennsylvania"%string |};
    {| row_geometry := [point_A; point_D];
       row_state_name := Some "Delaware"%string |} ].

(** A Nominatim answer with a state of the table and a malformed country
    code. *)
Definition georgia_reply : http_reply :=
  HttpBody (JDict [("address"%string,
                    JDict [("country_code"%string, JNum (Int 1));
                           ("state"%string, JStr "Georgia")])]).

(* ===================================================================== *)
(** * Binary64 arithmetic: rounding stays in range and is exact where the
      resampler needs it *)
(* ===================================================================== *)

Lemma iter_pos_nat {A} (f : A -> A) p : forall x,
  iter_pos f p x = Nat.iter (Pos.to_nat p) f x.
Proof.
  induction p as [p IH|p IH|]; intro x; cbn [iter_pos].
  - rewrite !IH, Pos2Nat.inj_xI, <- Nat.iter_succ_r, <- Nat.iter_add.
    f_equal. lia.
  - rewrite !IH, Pos2Nat.inj_xO, <- Nat.iter_add. f_equal. lia.
  - reflexivity.
Qed.

Lemma digits2_pos_size p : digits2_pos p = Pos.size p.
Proof. induction p; simpl; congruence. Qed.

Lemma Zdigits2_log2 m : 0 < m -> Zdigits2 m = Z.log2 m + 1.
Proof.
  destruct m as [|p|p]; try lia. intros _. simpl.
  rewrite digits2_pos_size. destruct p; simpl; lia.
Qed.

Lemma Zdigits2_nonneg m : 0 <= Zdigits2 m.
Proof. destruct m; simpl; lia. Qed.

Lemma Zdigits2_mono a b : 0 <= a <= b -> Zdigits2 a <= Zdigits2 b.
Proof.
  intros [Ha Hab].
  destruct (Z.eq_dec a 0) as [->|Hn]; [apply Zdigits2_nonneg|].
  rewrite !Zdigits2_log2 by lia.
  pose proof (Z.log2_le_mono a b Hab). lia.
Qed.

Lemma Zdigits2_shiftr m k :
  0 <= m -> 0 <= k -> Zdigits2 (Z.shiftr m k) <= Z.max 0 (Zdigits2 m - k).
Proof.
  intros Hm Hk.
  destruct (Z.eq_dec m 0) as [->|Hn].
  { rewrite Z.shiftr_0_l. simpl. lia. }
  destruct (Z.eq_dec (Z.shiftr m k) 0) as [->|Hs]; [simpl; lia|].
  assert (0 <= Z.shiftr m k) by (apply Z.shiftr_nonneg; lia).
  rewrite !Zdigits2_log2 by lia.
  rewrite Z.log2_shiftr by lia.
  assert (~ Z.log2 m < k).
  { intro Hlt. apply Hs. apply Z.shiftr_eq_0; lia. }
  lia.
Qed.

Lemma Zdigits2_succ m : 0 <= m -> Zdigits2 (m + 1) <= Zdigits2 m + 1.
Proof.
  intros Hm. destruct (Z.eq_dec m 0) as [->|Hn]; [simpl; lia|].
  rewrite !Zdigits2_log2 by lia.
  pose proof (Z.log2_succ_le m). unfold Z.succ in *. lia.
Qed.

Lemma shr_1_m r : 0 <= shr_m r -> shr_m (shr_1 r) = Z.div2 (shr_m r).
Proof.
  destruct r as [m rb sb]; simpl. destruct m as [|[p|p|]|p]; simpl; intros; try reflexivity; lia.
Qed.

Lemma shr_m_iter n r :
  0 <= shr_m r -> shr_m (Nat.iter n shr_1 r) = Z.shiftr (shr_m r) (Z.of_nat n).
Proof.
  intros Hr. induction n as [|n IH].
  - simpl. now rewrite Z.shiftr_0_r.
  - rewrite Nat2Z.inj_succ.
    change (Nat.iter (S n) shr_1 r) with (shr_1 (Nat.iter n shr_1 r)).
    rewrite shr_1_m.
    + rewrite IH, Z.div2_spec, Z.shiftr_shiftr by lia. f_equal. 
    + rewrite IH. apply Z.shiftr_nonneg. lia.
Qed.

Lemma shr_record_of_loc_m m l : shr_m (shr_record_of_loc m l) = m.
Proof. destruct l as [|[]]; reflexivity. Qed.

Lemma fexp_eq z : fexp prec emax z = Z.max (z - 53) (-1074).
Proof. reflexivity. Qed.

Lemma shr_fexp_spec m e l :
  0 <= m ->
  snd (shr_fexp prec emax m e l) = Z.max e (fexp prec emax (Zdigits2 m + e)) /\
  shr_m (fst (shr_fexp prec emax m e l))
  = Z.shiftr m (snd (shr_fexp prec emax m e l) - e).
Proof.
  intros Hm. unfold shr_fexp, shr.
  set (f := fexp prec emax (Zdigits2 m + e)).
  destruct (f - e) as [|p|p] eqn:E; cbn [fst snd].
  - split; [lia|]. rewrite Z.sub_diag, Z.shiftr_0_r. apply shr_record_of_loc_m.
  - split; [lia|]. rewrite iter_pos_nat, shr_m_iter, shr_record_of_loc_m.
    + f_equal. lia.
    + now rewrite shr_record_of_loc_m.
  - split; [lia|]. rewrite Z.sub_diag, Z.shiftr_0_r. apply shr_record_of_loc_m.
Qed.

Lemma round_nearest_even_bounds s l :
  s <= round_nearest_even s l <= s + 1.
Proof.
  destruct l as [|[]]; simpl; try lia. destruct (Z.even s); lia.
Qed.

Lemma binary_round_aux_bound sx m e l B :
  0 <= m -> Zdigits2 m + e <= B -> e <= B -> -1074 <= B <= 971 ->
  binary_round_aux prec emax sx m e l = S754_zero sx \/
  exists m' e', binary_round_aux prec emax sx m e l = S754_finite sx m' e' /\
                Zdigits2 (Zpos m') + e' <= B + 1 /\ e' <= B.
Proof.
  intros Hm Hd He HB. unfold binary_round_aux.
  pose proof (shr_fexp_spec m e l Hm) as [E1 M1].
  destruct (shr_fexp prec emax m e l) as [r1 e1]. cbn [fst snd] in E1, M1.
  set (m1 := round_nearest_even (shr_m r1) (loc_of_shr_record r1)).
  assert (Hs : 0 <= shr_m r1) by (rewrite M1; apply Z.shiftr_nonneg; lia).
  pose proof (round_nearest_even_bounds (shr_m r1) (loc_of_shr_record r1)) as Hr.
  fold m1 in Hr.
  assert (Hm1 : 0 <= m1) by lia.
  pose proof (shr_fexp_spec m1 e1 loc_Exact Hm1) as [E2 M2].
  destruct (shr_fexp prec emax m1 e1 loc_Exact) as [r2 e2]. cbn [fst snd] in E2, M2.
  rewrite fexp_eq in E1, E2.
  assert (Hd1 : Zdigits2 m1 + e1 <= B + 1).
  { pose proof (Zdigits2_mono m1 (shr_m r1 + 1) ltac:(lia)).
    pose proof (Zdigits2_succ (shr_m r1) Hs).
    pose proof (Zdigits2_shiftr m (e1 - e) Hm ltac:(lia)).
    rewrite <- M1 in *. lia. }
  assert (He2 : e2 <= B) by lia.
  destruct (shr_m r2) as [|p|p] eqn:E.
  - now left.
  - right. replace (e2 <=? emax - prec) with true
      by (symmetry; apply Z.leb_le; unfold emax, prec; lia).
    exists p, e2. split; [reflexivity|]. split; [|lia].
    pose proof (Zdigits2_shiftr m1 (e2 - e1) Hm1 ltac:(lia)) as H2.
    rewrite <- M2 in H2. cbn [Zdigits2] in H2 |- *. lia.
  - exfalso. pose proof (Z.shiftr_nonneg m1 (e2 - e1)). rewrite <- M2 in *. lia.
Qed.

Lemma pos_iter_xO p d : Zpos (Pos.iter xO p d) = Zpos p * 2 ^ Zpos d.
Proof.
  revert p. induction d using Pos.peano_ind; intro p.
  - simpl. lia.
  - rewrite Pos.iter_succ, Pos2Z.inj_succ, Z.pow_succ_r by lia.
    rewrite Pos2Z.inj_xO, IHd. lia.
Qed.

Lemma shl_align_spec mx ex ex' :
  snd (shl_align mx ex ex') = Z.min ex ex' /\
  Zpos (fst (shl_align mx ex ex')) = Zpos mx * 2 ^ (ex - snd (shl_align mx ex ex')).
Proof.
  unfold shl_align. destruct (ex' - ex) as [|d|d] eqn:E; cbn [fst snd].
  - split; [lia|]. rewrite Z.sub_diag. simpl. lia.
  - split; [lia|]. rewrite Z.sub_diag. simpl. lia.
  - split; [lia|]. rewrite pos_iter_xO. f_equal. f_equal. lia.
Qed.

Lemma Zdigits2_mul_pow2 m k :
  0 < m -> 0 <= k -> Zdigits2 (m * 2 ^ k) = Zdigits2 m + k.
Proof.
  intros Hm Hk. assert (0 < 2 ^ k) by (apply Z.pow_pos_nonneg; lia).
  rewrite !Zdigits2_log2 by nia. rewrite Z.log2_mul_pow2 by lia. lia.
Qed.

Lemma float_of_int_small z B :
  0 <= z -> Zdigits2 z <= B -> 0 <= B <= 971 ->
  exists x, float_of_int z = Ok x /\ small_nonneg (B + 1) x.
Proof.
  intros Hz Hd HB. unfold float_of_int.
  destruct z as [|p|p]; [| |lia].
  - exists (S754_zero false). split; [reflexivity|now left].
  - cbn [binary_normalize]. unfold binary_round.
    pose proof (shl_align_spec p 0 (fexp prec emax (Zpos (digits2_pos p) + 0))) as [E M].
    destruct (shl_align p 0 _) as [mz ez]. cbn [fst snd] in E, M.
    assert (Hez : ez <= 0) by lia.
    assert (Hdz : Zdigits2 (Zpos mz) + ez <= B).
    { rewrite M, Zdigits2_mul_pow2 by lia. lia. }
    destruct (binary_round_aux_bound false (Zpos mz) ez loc_Exact B) as [Hr|(m' & e' & Hr & H1 & H2)];
      try lia; rewrite Hr; cbn [is_infinity].
    + eexists; split; [reflexivity|now left].
    + eexists; split; [reflexivity|]. right. exists m', e'. repeat split; lia.
Qed.

Lemma div_eucl_div a b : Z.div_eucl a b = (a / b, a mod b).
Proof. unfold Z.div, Z.modulo. now destruct (Z.div_eucl a b). Qed.

Lemma int_true_div_small m T :
  0 <= m <= T -> 0 < T ->
  exists x, int_true_div m T = Ok x /\ small_nonneg 2 x.
Proof.
  intros Hm HT. unfold int_true_div.
  replace (T =? 0) with false by (symmetry; apply Z.eqb_neq; lia).
  destruct T as [|T|T]; try lia.
  destruct m as [|m|m]; try lia.
  - exists (S754_zero false). split; [reflexivity|now left].
  - cbn [exact_int SFdiv]. unfold SFdiv_core_binary.
    set (e' := Z.min _ (0 - 0)).
    assert (He' : e' <= 0) by (subst e'; lia).
    set (m' := match 0 - 0 - e' with Z0 => Zpos m | Zpos _ => Z.shiftl (Zpos m) (0 - 0 - e') | Zneg _ => 0 end).
    assert (Hm' : m' = Zpos m * 2 ^ (- e')).
    { subst m'. destruct (0 - 0 - e') as [|s|s] eqn:E; try lia.
      - replace (- e') with 0 by lia. simpl. lia.
      - rewrite Z.shiftl_mul_pow2 by lia. f_equal. f_equal. lia. }
    rewrite div_eucl_div.
    assert (Hp : 0 < 2 ^ (- e')) by (apply Z.pow_pos_nonneg; lia).
    assert (Hq0 : 0 <= m' / Zpos T) by (apply Z.div_pos; nia).
    assert (Hq : m' / Zpos T <= 2 ^ (- e')).
    { apply Z.div_le_upper_bound; nia. }
    assert (Hdq : Zdigits2 (m' / Zpos T) + e' <= 1).
    { pose proof (Zdigits2_mono _ _ (conj Hq0 Hq)) as Hmono.
      rewrite (Zdigits2_log2 (2 ^ (- e'))), Z.log2_pow2 in Hmono by lia. lia. }
    destruct (binary_round_aux_bound (xorb false false) (m' / Zpos T) e'
                (new_location (Zpos T) (m' mod Zpos T)) 1)
      as [Hr|(mr & er & Hr & H1 & H2)]; try lia; rewrite Hr; cbn [is_infinity xorb].
    + eexists; split; [reflexivity|now left].
    + eexists; split; [reflexivity|]. right. exists mr, er. repeat split; lia.
Qed.

Lemma fmul_small B1 B2 x y :
  small_nonneg B1 x -> small_nonneg B2 y ->
  -1074 <= B1 + B2 <= 971 ->
  small_nonneg (B1 + B2 + 1) (fmul x y).
Proof.
  intros [->|(mx & ex & -> & Hx1 & Hx2)] [->|(my & ey & -> & Hy1 & Hy2)] HB;
    try (now left).
  unfold fmul. cbn [SFmul xorb].
  assert (Hd : Zdigits2 (Zpos (mx * my)) + (ex + ey) <= B1 + B2).
  { rewrite Pos2Z.inj_mul. rewrite !Zdigits2_log2 in * by lia.
    pose proof (Z.log2_mul_above (Zpos mx) (Zpos my)). lia. }
  assert (He : ex + ey <= B1 + B2).
  { pose proof (Zdigits2_nonneg (Zpos mx)). pose proof (Zdigits2_nonneg (Zpos my)).
    cbn [Zdigits2] in *. lia. }
  destruct (binary_round_aux_bound false (Zpos (mx * my)) (ex + ey) loc_Exact (B1 + B2))
    as [Hr|(mr & er & Hr & H1 & H2)]; try lia; rewrite Hr.
  - now left.
  - right. exists mr, er. repeat split; lia.
Qed.

Lemma int_of_float_small B x :
  small_nonneg B x -> exists i, int_of_float x = Ok i /\ 0 <= i.
Proof.
  intros [->|(m & e & -> & _)]; cbn [int_of_float cond_Zopp].
  - exists 0. split; [reflexivity|lia].
  - eexists; split; [reflexivity|]. apply Z.shiftl_nonneg. lia.
Qed.

Lemma point_idx_total n m T :
  1 <= T -> 0 <= m <= T -> 2 <= n -> n - 1 < 2 ^ 900 ->
  exists i, point_idx n m T = Ok i /\ 0 <= i <= n - 1.
Proof.
  intros HT Hm Hn Hb. unfold point_idx, minute_ratio.
  replace (0 <? T) with true by (symmetry; apply Z.ltb_lt; lia).
  cbn [num_div]. destruct (int_true_div_small m T) as (r & -> & Hr); try lia.
  cbn [bind num_mul to_float].
  destruct (float_of_int_small (n - 1) 900) as (y & -> & Hy); try lia.
  { rewrite Zdigits2_log2 by lia.
    assert (Z.log2 (n - 1) < 900) by (apply Z.log2_lt_pow2; lia). lia. }
  cbn [bind num_int].
  destruct (int_of_float_small _ _ (fmul_small _ _ _ _ Hr Hy ltac:(lia)))
    as (i & -> & Hi).
  cbn [bind]. eexists; split; [reflexivity|]. lia.
Qed.

Lemma int_true_div_self T : 0 < T -> int_true_div T T = Ok one.
Proof.
  intros HT. unfold int_true_div.
  replace (T =? 0) with false by (symmetry; apply Z.eqb_neq; lia).
  destruct T as [|T|T]; try lia.
  cbn [exact_int SFdiv]. unfold SFdiv_core_binary.
  replace (Zdigits2 (Zpos T) + 0 - (Zdigits2 (Zpos T) + 0)) with 0 by lia.
  change (Z.min (fexp prec emax 0) (0 - 0)) with (-53).
  change (0 - 0 - -53) with 53.
  cbv beta iota. rewrite div_eucl_div, Z.shiftl_mul_pow2 by lia.
  rewrite Z.mul_comm, Z.div_mul, Z.mod_mul by lia.
  assert (Hl : new_location (Zpos T) 0 = loc_Exact).
  { unfold new_location. destruct (Z.even (Zpos T)); reflexivity. }
  rewrite Hl. reflexivity.
Qed.

Lemma binary_round_aux_canonical s m e :
  digits2_pos m = 53%positive -> -1074 <= e <= 971 ->
  binary_round_aux prec emax s (Zpos m) e loc_Exact = S754_finite s m e.
Proof.
  intros Hd He. unfold binary_round_aux, shr_fexp.
  cbn [Zdigits2]. rewrite Hd.
  replace (fexp prec emax (53 + e) - e) with 0 by (rewrite fexp_eq; lia).
  cbn [shr shr_record_of_loc shr_m loc_of_shr_record round_nearest_even Zdigits2].
  rewrite Hd.
  replace (fexp prec emax (53 + e) - e) with 0 by (rewrite fexp_eq; lia).
  cbn [shr shr_record_of_loc shr_m].
  replace (e <=? emax - prec) with true
    by (symmetry; apply Z.leb_le; unfold emax, prec; lia).
  reflexivity.
Qed.

Lemma float_of_int_exact k :
  0 < k < 2 ^ 53 ->
  exists mk ek, float_of_int k = Ok (S754_finite false mk ek) /\
                digits2_pos mk = 53%positive /\ -52 <= ek <= 0 /\
                Zpos mk = k * 2 ^ (- ek).
Proof.
  intros Hk. unfold float_of_int.
  destruct k as [|p|p]; try lia.
  cbn [binary_normalize]. unfold binary_round.
  assert (Hd : 1 <= Zpos (digits2_pos p) <= 53).
  { change (Zpos (digits2_pos p)) with (Zdigits2 (Zpos p)).
    rewrite Zdigits2_log2 by lia.
    assert (Z.log2 (Zpos p) < 53) by (apply Z.log2_lt_pow2; lia).
    pose proof (Z.log2_nonneg (Zpos p)). lia. }
  pose proof (shl_align_spec p 0 (fexp prec emax (Zpos (digits2_pos p) + 0))) as [E M].
  destruct (shl_align p 0 _) as [mz ez]. cbn [fst snd] in E, M.
  rewrite fexp_eq in E.
  assert (Hez : ez = Zpos (digits2_pos p) - 53) by lia.
  assert (Hdz : digits2_pos mz = 53%positive).
  { assert (Zdigits2 (Zpos mz) = 53); [|cbn [Zdigits2] in *; lia].
    rewrite M, Zdigits2_mul_pow2 by lia. cbn [Zdigits2]. lia. }
  rewrite binary_round_aux_canonical by (trivial; lia).
  cbn [is_infinity]. exists mz, ez. repeat split; try lia.
  rewrite M. replace (0 - ez) with (- ez) by lia. reflexivity.
Qed.

Lemma Zdigits2_mul_one m :
  digits2_pos m = 53%positive ->
  Zdigits2 (Zpos (4503599627370496 * m)) = 105.
Proof.
  intros Hd. rewrite Pos2Z.inj_mul, Z.mul_comm.
  change (Zpos 4503599627370496) with (2 ^ 52).
  rewrite Zdigits2_mul_pow2 by lia. cbn [Zdigits2]. rewrite Hd. reflexivity.
Qed.

Lemma fmul_one_canonical m e :
  digits2_pos m = 53%positive -> -1022 <= e <= 971 ->
  fmul one (S754_finite false m e) = S754_finite false m e.
Proof.
  intros Hd He. unfold fmul, one. cbn [SFmul xorb].
  unfold binary_round_aux, shr_fexp.
  rewrite (Zdigits2_mul_one m Hd).
  replace (fexp prec emax (105 + (-52 + e)) - (-52 + e)) with 52
    by (rewrite fexp_eq; lia).
  cbn [shr shr_record_of_loc Pos.mul iter_pos shr_1 orb shr_m loc_of_shr_record
       round_nearest_even Zdigits2].
  rewrite Hd.
  replace (fexp prec emax (53 + (-52 + e + 52)) - (-52 + e + 52)) with 0
    by (rewrite fexp_eq; lia).
  cbn [shr shr_m].
  replace (-52 + e + 52 <=? emax - prec) with true
    by (symmetry; apply Z.leb_le; unfold emax, prec; lia).
  f_equal. lia.
Qed.

Lemma point_idx_last n T :
  1 <= T -> 2 <= n <= 2 ^ 53 -> point_idx n T T = Ok (n - 1).
Proof.
  intros HT Hn. unfold point_idx, minute_ratio.
  replace (0 <? T) with true by (symmetry; apply Z.ltb_lt; lia).
  cbn [num_div]. rewrite int_true_div_self by lia.
  cbn [bind num_mul to_float].
  destruct (float_of_int_exact (n - 1)) as (mk & ek & -> & Hd & He & Hm); [lia|].
  cbn [bind]. rewrite fmul_one_canonical by (trivial; lia).
  cbn [num_int int_of_float cond_Zopp bind].
  rewrite Hm. f_equal.
  destruct ek as [|p|p]; try lia.
  - simpl. lia.
  - change (Z.shiftl ?a (Zneg p)) with (Z.shiftr a (Zpos p)).
    rewrite Z.shiftr_div_pow2 by lia.
    replace (- Zneg p) with (Zpos p) by lia.
    rewrite Z.div_mul by (apply Z.pow_nonzero; lia). lia.
Qed.

Lemma point_idx_first n T :
  1 <= T -> 2 <= n -> n - 1 < 2 ^ 900 -> point_idx n 0 T = Ok 0.
Proof.
  intros HT Hn Hb. unfold point_idx, minute_ratio.
  replace (0 <? T) with true by (symmetry; apply Z.ltb_lt; lia).
  cbn [num_div]. unfold int_true_div.
  replace (T =? 0) with false by (symmetry; apply Z.eqb_neq; lia).
  destruct T as [|T|T]; try lia.
  cbn [exact_int SFdiv xorb is_infinity bind num_mul to_float].
  destruct (float_of_int_small (n - 1) 900) as (y & -> & [->|(m & e & -> & _)]);
    try lia.
  { rewrite Zdigits2_log2 by lia.
    assert (Z.log2 (n - 1) < 900) by (apply Z.log2_lt_pow2; lia). lia. }
  - cbn. f_equal. lia.
  - cbn. f_equal. lia.
Qed.

(* ===================================================================== *)
(** * Binary64 arithmetic: rounding against the exact quotient *)
(* ===================================================================== *)












(* ===================================================================== *)
(** * Loops, comprehensions and indexing *)
(* ===================================================================== *)

Lemma bind_assoc {A B C : Type} (c : result A) (f : A -> result B)
      (g : B -> result C) :
  (y <- (x <- c ;; f x) ;; g y) = (x <- c ;; y <- f x ;; g y).
Proof. destruct c; reflexivity. Qed.

Lemma for_each_ext {S A : Type} (f g : S -> A -> result S) l :
  (forall s a, In a l -> f s a = g s a) ->
  forall s, for_each f l s = for_each g l s.
Proof.
  induction l as [|a l IH]; intros Hfg s; [reflexivity|].
  cbn [for_each]. rewrite Hfg by now left.
  destruct (g s a); cbn [bind]; [|reflexivity].
  apply IH. intros. apply Hfg. now right.
Qed.

(** A loop that appends one computed element per iteration is a
    comprehension. *)
Lemma for_each_append {A B : Type} (f : A -> result B) l :
  forall acc,
    for_each (fun acc a => b <- f a ;; Ok (acc ++ [b])) l acc
    = (bs <- map_result f l ;; Ok (acc ++ bs)).
Proof.
  induction l as [|a l IH]; intro acc; cbn [for_each map_result bind].
  - now rewrite app_nil_r.
  - destruct (f a) as [b|e]; cbn [bind]; [|reflexivity].
    rewrite IH. destruct (map_result f l); cbn [bind]; [|reflexivity].
    now rewrite <- app_assoc.
Qed.

Lemma map_result_ext {A B : Type} (f g : A -> result B) l :
  (forall a, In a l -> f a = g a) -> map_result f l = map_result g l.
Proof.
  induction l as [|a l IH]; intros Hfg; [reflexivity|].
  cbn [map_result]. rewrite Hfg by now left.
  rewrite IH; [reflexivity|]. intros. apply Hfg. now right.
Qed.

Lemma map_result_length {A B : Type} (f : A -> result B) l :
  forall bs, map_result f l = Ok bs -> List.length bs = List.length l.
Proof.
  induction l as [|a l IH]; cbn [map_result]; intros bs H.
  - now inversion H.
  - destruct (f a); cbn [bind] in H; [|discriminate].
    destruct (map_result f l) as [bs'|]; cbn [bind] in H; [|discriminate].
    inversion H. cbn [Datatypes.length]. f_equal. now apply IH.
Qed.

Lemma map_result_total {A B : Type} (f : A -> result B) l :
  (forall a, In a l -> exists b, f a = Ok b) ->
  exists bs, map_result f l = Ok bs.
Proof.
  induction l as [|a l IH]; intros Hf; cbn [map_result].
  - now exists [].
  - destruct (Hf a) as [b ->]; [now left|].
    destruct IH as [bs ->]; [intros; apply Hf; now right|].
    now exists (b :: bs).
Qed.

Lemma map_result_nth {A B : Type} (f : A -> result B) l :
  forall bs i a,
    map_result f l = Ok bs -> nth_error l i = Some a ->
    exists b, f a = Ok b /\ nth_error bs i = Some b.
Proof.
  induction l as [|a0 l IH]; cbn [map_result]; intros bs i a H Hi.
  - destruct i; discriminate.
  - destruct (f a0) as [b0|] eqn:E0; cbn [bind] in H; [|discriminate].
    destruct (map_result f l) as [bs'|]; cbn [bind] in H; [|discriminate].
    inversion H; subst bs. destruct i as [|i]; cbn [nth_error] in *.
    + inversion Hi; subst. now exists b0.
    + now apply IH.
Qed.

Lemma map_result_In {A B : Type} (f : A -> result B) l :
  forall bs b,
    map_result f l = Ok bs -> In b bs -> exists a, In a l /\ f a = Ok b.
Proof.
  induction l as [|a0 l IH]; cbn [map_result]; intros bs b H Hb.
  - inversion H; subst. contradiction.
  - destruct (f a0) as [b0|] eqn:E0; cbn [bind] in H; [|discriminate].
    destruct (map_result f l) as [bs'|] eqn:E; cbn [bind] in H; [|discriminate].
    inversion H; subst bs. destruct Hb as [<-|Hb].
    + exists a0. split; [now left|assumption].
    + destruct (IH bs' b eq_refl Hb) as (a & Ha & Hfa).
      exists a. split; [now right|assumption].
Qed.

(** A comprehension that reads back its own index is the identity. *)
Lemma map_result_getitem_id {A : Type} (l : list A) :
  map_result (fun i => getitem l i) (py_range (len l)) = Ok l.
Proof.
  unfold py_range, len. rewrite Nat2Z.id.
  assert (G : forall pre l' : list A,
             map_result (fun i => getitem (pre ++ l') i)
                        (map Z.of_nat (seq (List.length pre) (List.length l')))
             = Ok l').
  { intros pre l'. revert pre. induction l' as [|a l' IH]; intro pre; [reflexivity|].
    cbn [Datatypes.length seq map map_result].
    assert (E : getitem (pre ++ a :: l') (Z.of_nat (List.length pre)) = Ok a).
    { unfold getitem. replace (Z.of_nat (List.length pre) <? 0) with false
        by (symmetry; apply Z.ltb_ge; lia).
      cbv zeta. replace (Z.of_nat (List.length pre) <? 0) with false
        by (symmetry; apply Z.ltb_ge; lia).
      rewrite Nat2Z.id, nth_error_app2, Nat.sub_diag by lia. reflexivity. }
    rewrite E. cbn [bind].
    specialize (IH (pre ++ [a])).
    rewrite <- app_assoc, length_app in IH. cbn [Datatypes.length app] in IH.
    rewrite Nat.add_1_r in IH. rewrite IH. reflexivity. }
  apply (G [] l).
Qed.

Lemma py_range_length n : List.length (py_range n) = Z.to_nat n.
Proof. unfold py_range. now rewrite length_map, length_seq. Qed.

Lemma py_range_In n i : In i (py_range n) <-> 0 <= i < n.
Proof.
  unfold py_range. rewrite in_map_iff. split.
  - intros (k & <- & Hk). apply in_seq in Hk. lia.
  - intros H. exists (Z.to_nat i). split; [lia|]. apply in_seq. lia.
Qed.

Lemma py_range_nth n i :
  0 <= i < n -> nth_error (py_range n) (Z.to_nat i) = Some i.
Proof.
  intros H. unfold py_range.
  rewrite nth_error_map, nth_error_seq.
  replace (Z.to_nat i <? Z.to_nat n)%nat with true
    by (symmetry; apply Nat.ltb_lt; lia).
  cbn. f_equal. lia.
Qed.

Lemma getitem_nonneg {A : Type} (l : list A) i :
  0 <= i < len l -> exists a, getitem l i = Ok a /\ nth_error l (Z.to_nat i) = Some a.
Proof.
  unfold getitem, len. intros H.
  replace (i <? 0) with false by (symmetry; apply Z.ltb_ge; lia).
  cbv zeta. replace (i <? 0) with false by (symmetry; apply Z.ltb_ge; lia).
  destruct (nth_error l (Z.to_nat i)) as [a|] eqn:E.
  - now exists a.
  - apply nth_error_None in E. lia.
Qed.

Lemma getitem_In {A : Type} (l : list A) i a : getitem l i = Ok a -> In a l.
Proof.
  unfold getitem. destruct (_ <? 0); [discriminate|].
  destruct (nth_error l _) eqn:E; [|discriminate].
  intros H; inversion H; subst. eapply nth_error_In; eassumption.
Qed.

Lemma getitem_last {A : Type} (l : list A) :
  l <> [] -> getitem l (-1) = getitem l (len l - 1).
Proof.
  intros Hl. unfold getitem, len.
  assert (0 < Z.of_nat (List.length l)) by (destruct l; [congruence|cbn [Datatypes.length]; lia]).
  replace (-1 <? 0) with true by reflexivity.
  replace (Z.of_nat (List.length l) - 1 <? 0) with false
    by (symmetry; apply Z.ltb_ge; lia).
  cbv zeta. replace (-1 + Z.of_nat (List.length l)) with (Z.of_nat (List.length l) - 1) by lia.
  reflexivity.
Qed.

(* ===================================================================== *)
(** * The resampler *)
(* ===================================================================== *)

Section ResamplerFacts.
Context {A : Type}.
Implicit Types (P : list A) (T : Z).

(** The loop of [sample_route_to_minutes] as a comprehension. *)
Lemma sample_route_to_minutes_map P T :
  1 < len P ->
  sample_route_to_minutes P T
  = map_result (fun minute => i <- point_idx (len P) minute T ;; getitem P i)
               (py_range (T + 1)).
Proof.
  intros HP. unfold sample_route_to_minutes.
  replace (len P <=? 1) with false by (symmetry; apply Z.leb_gt; lia).
  rewrite (for_each_ext _
             (fun acc minute =>
                p <- (i <- point_idx (len P) minute T ;; getitem P i) ;;
                Ok (acc ++ [p]))).
  - rewrite for_each_append. now destruct (map_result _ _).
  - intros. now rewrite bind_assoc.
Qed.

Lemma sample_route_to_minutes_short P T :
  len P <= 1 -> sample_route_to_minutes P T = Ok P.
Proof.
  intros HP. unfold sample_route_to_minutes.
  now replace (len P <=? 1) with true by (symmetry; apply Z.leb_le; lia).
Qed.

(** Every minute of the loop finds a point. *)
Lemma sample_point_total P T minute :
  1 < len P <= 2 ^ 53 -> 1 <= T -> 0 <= minute <= T ->
  exists i p, point_idx (len P) minute T = Ok i /\ 0 <= i <= len P - 1 /\
              getitem P i = Ok p /\ nth_error P (Z.to_nat i) = Some p.
Proof.
  intros HP HT Hm.
  assert (2 ^ 53 < 2 ^ 900) by (apply Z.pow_lt_mono_r; lia).
  destruct (point_idx_total (len P) minute T) as (i & Hi & Hr); try lia.
  destruct (getitem_nonneg P i) as (p & Hp & Hn); [lia|].
  now exists i, p.
Qed.

Lemma sample_route_to_minutes_total P T :
  1 < len P <= 2 ^ 53 -> 1 <= T ->
  exists S, sample_route_to_minutes P T = Ok S /\ len S = T + 1.
Proof.
  intros HP HT. rewrite sample_route_to_minutes_map by lia.
  destruct (map_result_total
              (fun minute => i <- point_idx (len P) minute T ;; getitem P i)
              (py_range (T + 1))) as [S HS].
  - intros m Hm. apply py_range_In in Hm.
    destruct (sample_point_total P T m) as (i & p & Hi & _ & Hp & _); try lia.
    exists p. rewrite Hi. cbn [bind]. exact Hp.
  - exists S. split; [assumption|].
    apply map_result_length in HS. rewrite py_range_length in HS.
    unfold len. lia.
Qed.
End ResamplerFacts.

(** C1.  For a polyline [P] with more than one point and an integer
    [T >= 1], [sample_route_to_minutes P T] returns a sequence of length
    [T + 1] whose first element is [P[0]] and whose last element is [P[-1]].
    (The index arithmetic is in binary64, so the polyline is taken to have at
    most [2^53] points: [len(P) - 1] is then a float.) *)
Theorem sample_route_to_minutes_endpoints {A : Type} (P : list A) (T : Z) :
  1 < len P -> len P <= 2 ^ 53 -> 1 <= T ->
  exists S, sample_route_to_minutes P T = Ok S /\
            len S = T + 1 /\
            getitem S 0 = getitem P 0 /\
            getitem S (-1) = getitem P (-1).
Proof.
  intros HP HP' HT.
  destruct (sample_route_to_minutes_total P T) as (S & HS & HL); try lia.
  exists S. split; [assumption|]. split; [assumption|].
  rewrite sample_route_to_minutes_map in HS by lia.
  assert (2 ^ 53 < 2 ^ 900) by (apply Z.pow_lt_mono_r; lia).
  split.
  - destruct (map_result_nth _ _ S (Z.to_nat 0) 0 HS) as (p & Hp & Hn).
    { apply py_range_nth. lia. }
    rewrite point_idx_first in Hp by lia. cbn [bind] in Hp.
    rewrite Hp. unfold getitem. cbn [Z.ltb Z.compare]. cbv zeta.
    cbn [Z.ltb Z.compare]. now rewrite Hn.
  - rewrite !getitem_last.
    + destruct (map_result_nth _ _ S (Z.to_nat T) T HS) as (p & Hp & Hn).
      { apply py_range_nth. lia. }
      rewrite point_idx_last in Hp by lia. cbn [bind] in Hp.
      rewrite Hp, HL. replace (T + 1 - 1) with T by lia.
      unfold getitem. replace (T <? 0) with false by (symmetry; apply Z.ltb_ge; lia).
      cbv zeta. replace (T <? 0) with false by (symmetry; apply Z.ltb_ge; lia).
      now rewrite Hn.
    + intros ->. unfold len in HP. cbn in HP. lia.
    + intros ->. unfold len in HL. cbn in HL. lia.
Qed.

(** The theorem applies to a three-point polyline resampled to 5 minutes. *)
Lemma sample_route_to_minutes_endpoints_witness :
  exists S, sample_route_to_minutes [10; 20; 30] 5 = Ok S /\
            len S = 5 + 1 /\
            getitem S 0 = getitem [10; 20; 30] 0 /\
            getitem S (-1) = getitem [10; 20; 30] (-1).
Proof.
  apply (sample_route_to_minutes_endpoints [10; 20; 30] 5).
  - reflexivity.
  - vm_compute. discriminate.
  - lia.
Defined.

(** ** The resampler against the specification *)

Lemma binary_round_aux_sign_false m e l :
  sign_false (binary_round_aux prec emax false m e l).
Proof.
  unfold binary_round_aux.
  destruct (shr_fexp prec emax m e l) as [r1 e1].
  destruct (shr_fexp prec emax _ e1 loc_Exact) as [r2 e2].
  destruct (shr_m r2); [reflexivity| |exact I].
  destruct (e2 <=? emax - prec); reflexivity.
Qed.

Lemma int_true_div_sign_false m T r :
  0 <= m -> 0 < T -> int_true_div m T = Ok r -> sign_false r.
Proof.
  intros Hm HT. unfold int_true_div.
  destruct (T =? 0); [discriminate|].
  destruct (is_infinity _); [discriminate|].
  intros H; inversion H; subst r; clear H.
  destruct T as [|T|T]; try lia. destruct m as [|m|m]; try lia.
  - reflexivity.
  - cbn [exact_int SFdiv]. destruct (SFdiv_core_binary _ _ _ _ _ _) as [[q e] l].
    apply binary_round_aux_sign_false.
Qed.

Lemma point_idx_no_duration n minute T :
  T <= 0 -> 1 <= n - 1 -> point_idx n minute T = Ok 0.
Proof.
  intros HT Hn. unfold point_idx, minute_ratio.
  replace (0 <? T) with false by (symmetry; apply Z.ltb_ge; lia).
  cbn. f_equal. lia.
Qed.








(** The code and the specification on examples: they agree at every
    minute when three points are resampled to 5 minutes; they differ at
    minute 15 when 23 points are resampled to 22 minutes, and at seven
    minutes when 50 points are resampled to 98 minutes. *)
Example inexact_minutes_examples :
  inexact_minutes 3 5 = [] /\
  inexact_minutes 23 22 = [15] /\
  inexact_minutes 50 98 = [2; 4; 8; 16; 32; 54; 64].
Proof. repeat split; vm_compute; reflexivity. Qed.

(** C2 as stated fails: resampling the 23 points [0, 1, ..., 22] to 22
    minutes puts the point of index 14 at minute 15, where the
    specification prescribes index [floor((15 / 22) * 22) = 15]. *)
Lemma sample_route_to_minutes_not_reference :
  sample_route_to_minutes (py_range 23) 22 <> Ok (resample_spec (py_range 23) 22) /\
  (exists S, sample_route_to_minutes (py_range 23) 22 = Ok S /\
             nth_error S 15 = Some 14) /\
  nth_error (resample_spec (py_range 23) 22) 15 = Some 15 /\
  spec_index 23 15 22 = 15.
Proof.
  split; [vm_compute; discriminate|]. split; [|split; reflexivity].
  eexists. split; [vm_compute; reflexivity|reflexivity].
Qed.

(** ** Resampling twice *)

Lemma resample_exact_spec m k :
  resample_exact m = true -> 0 <= k <= m -> point_idx (m + 1) k m = Ok k.
Proof.
  unfold resample_exact. rewrite forallb_forall. intros H Hk.
  specialize (H k). rewrite py_range_In in H. specialize (H ltac:(lia)).
  destruct (point_idx (m + 1) k m); [|discriminate].
  apply Z.eqb_eq in H. now subst.
Qed.

(** The index computation is exact for every duration below 22 minutes and
    is not for 22. *)
Example resample_exact_durations :
  forallb resample_exact (py_range 22) = true /\ resample_exact 22 = false.
Proof. split; vm_compute; reflexivity. Qed.

(** C3, as the code has it.  Resampling the output again with the same [m]
    returns it unchanged when [m <= 0], when the polyline has at most one
    point, or when the binary64 index computation [int((k / m) * m)] gives
    back [k] for every minute [k] of [range(m + 1)]. *)
Theorem sample_route_to_minutes_idempotent {A : Type} (P : list A) (m : Z) :
  m <= 0 \/ len P <= 1 \/ resample_exact m = true ->
  (S <- sample_route_to_minutes P m ;; sample_route_to_minutes S m)
  = sample_route_to_minutes P m.
Proof.
  intros H.
  destruct (Z.le_gt_cases (len P) 1) as [HP|HP].
  { rewrite sample_route_to_minutes_short by assumption. cbn [bind].
    now apply sample_route_to_minutes_short. }
  destruct (sample_route_to_minutes P m) as [S|e] eqn:HS; [|reflexivity].
  cbn [bind]. rewrite sample_route_to_minutes_map in HS by lia.
  pose proof (map_result_length _ _ _ HS) as HL. rewrite py_range_length in HL.
  destruct (Z.le_gt_cases m 0) as [Hm|Hm].
  { apply sample_route_to_minutes_short. unfold len. lia. }
  destruct H as [H|[H|H]]; try lia.
  assert (HlenS : len S = m + 1) by (unfold len; lia).
  rewrite sample_route_to_minutes_map by lia.
  rewrite HlenS.
  rewrite (map_result_ext _ (fun i => getitem S i)).
  - rewrite <- HlenS. apply map_result_getitem_id.
  - intros k Hk. apply py_range_In in Hk.
    rewrite resample_exact_spec by (trivial; lia). reflexivity.
Qed.

(** The theorem applies to a four-point polyline and [m = 21]. *)
Lemma sample_route_to_minutes_idempotent_witness :
  (S <- sample_route_to_minutes [0; 1; 2; 3] 21 ;; sample_route_to_minutes S 21)
  = sample_route_to_minutes [0; 1; 2; 3] 21.
Proof.
  apply (sample_route_to_minutes_idempotent [0; 1; 2; 3] 21).
  right. right. vm_compute. reflexivity.
Defined.

(** C3 as stated fails: for [m = 22] the second resampling of a four-point
    polyline differs from the first. *)
Lemma sample_route_to_minutes_not_idempotent :
  (S <- sample_route_to_minutes [0; 1; 2; 3] 22 ;; sample_route_to_minutes S 22)
  <> sample_route_to_minutes [0; 1; 2; 3] 22.
Proof. vm_compute. discriminate. Qed.

(* ===================================================================== *)
(** * The registry scan of [generate_trajectory] *)
(* ===================================================================== *)

(** Two distinct registered names are both found. *)
Lemma scan_metros_registered metros start_metro end_metro :
  start_metro <> end_metro ->
  In start_metro (map metro_name metros) ->
  In end_metro (map metro_name metros) ->
  exists ps pe, scan_metros metros start_metro end_metro = (Some ps, Some pe).
Proof.
  intros Hne Hs He. unfold scan_metros.
  assert (G : forall acc,
             (fst acc <> None \/ In start_metro (map metro_name metros)) ->
             (snd acc <> None \/ In end_metro (map metro_name metros)) ->
             fst (fold_left (scan_step start_metro end_metro) metros acc) <> None /\
             snd (fold_left (scan_step start_metro end_metro) metros acc) <> None).
  { clear Hs He. induction metros as [|m metros IH]; intros [s e] H1 H2.
    - cbn in *. tauto.
    - cbn [fold_left scan_step]. cbn [map In fst snd] in H1, H2.
      destruct (String.eqb_spec (metro_name m) start_metro) as [E1|E1];
        [|destruct (String.eqb_spec (metro_name m) end_metro) as [E2|E2]];
        apply IH; cbn [fst snd].
      + left. discriminate.
      + destruct H2 as [H2|[H2|H2]]; [now left|congruence|now right].
      + destruct H1 as [H1|[H1|H1]]; [now left|congruence|now right].
      + left. discriminate.
      + destruct H1 as [H1|[H1|H1]]; [now left|congruence|now right].
      + destruct H2 as [H2|[H2|H2]]; [now left|congruence|now right]. }
  destruct (G (None, None)) as [G1 G2]; [now right|now right|].
  destruct (fold_left _ metros (None, None)) as [[ps|] [pe|]];
    cbn [fst snd] in *; try congruence.
  now exists ps, pe.
Qed.

(** With equal names the [elif] branch is never taken. *)
Lemma scan_metros_same metros name :
  snd (scan_metros metros name name) = None.
Proof.
  unfold scan_metros.
  assert (G : forall acc : option point * option point,
             snd acc = None ->
             snd (fold_left (scan_step name name) metros acc) = None).
  { induction metros as [|m metros IH]; intros [s e] H; [exact H|].
    cbn [fold_left scan_step].
    destruct (String.eqb (metro_name m) name); apply IH; exact H. }
  now apply G.
Qed.

(** C10.  Whatever the registry holds, [generate_trajectory(m, m)] raises
    the "Metro region not found" ValueError in both source files: the
    [elif] of the scan never assigns [end_coords] when both names are
    equal.  In particular this holds for every registered [m]. *)
Theorem generate_trajectory_same_metro
        (M : MathLib) (metros : list metro) (valhalla_url : option string)
        (router_type : string) (osrm : point -> point -> osrm_reply)
        (valhalla : point -> point -> valhalla_reply) (random_uniform : float)
        (m : string) (avg_speed_kmh : option float) :
  Routing.generate_trajectory metros valhalla_url router_type osrm valhalla
                              random_uniform m m avg_speed_kmh
  = Raise (ValueError ("Metro region not found: " ++ m ++ " or " ++ m))
  /\
  RoutingOsrmApi.generate_trajectory metros osrm random_uniform m m avg_speed_kmh
  = Raise (ValueError ("Metro region not found: " ++ m ++ " or " ++ m)).
Proof.
  pose proof (scan_metros_same metros m) as H.
  unfold Routing.generate_trajectory, RoutingOsrmApi.generate_trajectory.
  destruct (scan_metros metros m m) as [[[slat slon]|] e]; cbn [snd] in H; subst e;
    split; reflexivity.
Qed.

(* ===================================================================== *)
(** * Reverse geocoding *)
(* ===================================================================== *)

Lemma state_mapping_codes key code :
  lookup key state_mapping = Some code -> String.length code = 2%nat.
Proof.
  unfold state_mapping. cbn [lookup].
  repeat (destruct (String.eqb key _);
          [intros H; inversion H; reflexivity|]).
  discriminate.
Qed.

(** The result is never the empty string. *)
Lemma reverse_geocode_state_nonempty
      (str_lower str_upper : string -> string) (reply : http_reply) :
  reverse_geocode_state str_lower str_upper reply <> ""%string.
Proof.
  unfold reverse_geocode_state, reverse_geocode_try.
  destruct reply as [e|data]; [discriminate|].
  destruct (geocoded_state str_upper data) as [[]|]; cbn [bind]; try discriminate.
  destruct (lookup (str_lower s) state_mapping) as [code|] eqn:E.
  - apply state_mapping_codes in E. intros ->. discriminate.
  - destruct (String.eqb_spec s ""); cbn [negb]; [discriminate|assumption].
Qed.

(** The answer once the code has selected the string [s]. *)
Lemma reverse_geocode_selected (str_lower : string -> string) (s : string) :
  match lookup (str_lower s) state_mapping with
  | Some code =>
      match
        match lookup (str_lower s) state_mapping with
        | Some code => Ok code
        | None => Ok (if negb (String.eqb s "") then s else "UNKNOWN"%string)
        end
      with Ok r => r | Raise _ => "UNKNOWN"%string end = code
      /\ String.length code = 2%nat
  | None =>
      match
        match lookup (str_lower s) state_mapping with
        | Some code => Ok code
        | None => Ok (if negb (String.eqb s "") then s else "UNKNOWN"%string)
        end
      with Ok r => r | Raise _ => "UNKNOWN"%string end
      = if String.eqb s "" then "UNKNOWN"%string else s
  end.
Proof.
  destruct (lookup (str_lower s) state_mapping) as [code|] eqn:E.
  - split; [reflexivity|]. eapply state_mapping_codes; eassumption.
  - destruct (String.eqb s ""); reflexivity.
Qed.

(** C9, as the code has it.  [reverse_geocode_state] never returns an empty
    string.  A failed request gives ['UNKNOWN'], and so does a malformed
    answer: a body that is not an object, an ['address'] that is not an
    object, a ['state'] that is true but not a string, or, when the country
    code is read, a ['country_code'] that is not a string.  Otherwise the
    code selects a string: the ['state'] of the address when it is a
    non-empty string, and when the state is missing or false ([None], empty,
    zero) the ['country_code'] in upper case (the empty string upper-cased
    when that key is missing too; a missing ['address'] is an empty one).
    The result is the two-letter code of the table if the lower-cased
    selected string is one of its keys, otherwise the selected string itself,
    and ['UNKNOWN'] if that is empty. *)
Theorem reverse_geocode_state_result
        (str_lower str_upper : string -> string) (reply : http_reply) :
  let r := reverse_geocode_state str_lower str_upper reply in
  let selected (s : string) : Prop :=
    match lookup (str_lower s) state_mapping with
    | Some code => r = code /\ String.length code = 2%nat
    | None => r = if String.eqb s "" then "UNKNOWN"%string else s
    end in
  let by_country (address : list (string * json)) : Prop :=
    match lookup "country_code" address with
    | Some (JStr country_code) => selected (str_upper country_code)
    | Some _ => r = "UNKNOWN"%string
    | None => selected (str_upper EmptyString)
    end in
  let by_state (address : list (string * json)) : Prop :=
    match lookup "state" address with
    | Some (JStr (String c state)) => selected (String c state)
    | Some (JNum (Int z)) =>
        if z =? 0 then by_country address else r = "UNKNOWN"%string
    | Some (JNum (Float x)) =>
        if is_zero x then by_country address else r = "UNKNOWN"%string
    | Some (JBool true) | Some (JList (_ :: _)) | Some (JDict (_ :: _)) =>
        r = "UNKNOWN"%string
    | None | Some JNone | Some (JStr EmptyString) | Some (JBool false)
    | Some (JList []) | Some (JDict []) =>
        by_country address
    end in
  r <> ""%string /\
  match reply with
  | HttpFailed _ => r = "UNKNOWN"%string
  | HttpBody (JDict body) =>
      match lookup "address" body with
      | Some (JDict address) => by_state address
      | Some _ => r = "UNKNOWN"%string
      | None => by_state []
      end
  | HttpBody _ => r = "UNKNOWN"%string
  end.
Proof.
  cbv zeta. split; [apply reverse_geocode_state_nonempty|].
  unfold reverse_geocode_state, reverse_geocode_try, geocoded_state.
  destruct reply as [e|[| | | | |body]]; try reflexivity.
  cbn [dict_get].
  assert (Hc : forall address : list (string * json),
    let r := match
        (state <- (c <- dict_get (JDict address) "country_code" (JStr EmptyString) ;;
                   match c with
                   | JStr cc => Ok (JStr (str_upper cc))
                   | _ => Raise AttributeError
                   end) ;;
         match state with
         | JStr state =>
             match lookup (str_lower state) state_mapping with
             | Some code => Ok code
             | None => Ok (if negb (String.eqb state "") then state
                           else "UNKNOWN"%string)
             end
         | _ => Raise AttributeError
         end)
      with Ok s => s | Raise _ => "UNKNOWN"%string end in
    match lookup "country_code" address with
    | Some (JStr country_code) =>
        match lookup (str_lower (str_upper country_code)) state_mapping with
        | Some code => r = code /\ String.length code = 2%nat
        | None => r = if String.eqb (str_upper country_code) ""
                      then "UNKNOWN"%string else str_upper country_code
        end
    | Some _ => r = "UNKNOWN"%string
    | None =>
        match lookup (str_lower (str_upper EmptyString)) state_mapping with
        | Some code => r = code /\ String.length code = 2%nat
        | None => r = if String.eqb (str_upper EmptyString) ""
                      then "UNKNOWN"%string else str_upper EmptyString
        end
    end).
  { intros address. cbv zeta. cbn [dict_get bind].
    destruct (lookup "country_code" address) as [[| | |cc| |]|];
      try reflexivity; apply reverse_geocode_selected. }
  assert (Hs : forall address : list (string * json),
    let r := match
        (state <- (s <- dict_get (JDict address) "state" JNone ;;
                   if truthy s then Ok s
                   else
                     c <- dict_get (JDict address) "country_code" (JStr EmptyString) ;;
                     match c with
                     | JStr cc => Ok (JStr (str_upper cc))
                     | _ => Raise AttributeError
                     end) ;;
         match state with
         | JStr state =>
             match lookup (str_lower state) state_mapping with
             | Some code => Ok code
             | None => Ok (if negb (String.eqb state "") then state
                           else "UNKNOWN"%string)
             end
         | _ => Raise AttributeError
         end)
      with Ok s => s | Raise _ => "UNKNOWN"%string end in
    let selected (s : string) : Prop :=
      match lookup (str_lower s) state_mapping with
      | Some code => r = code /\ String.length code = 2%nat
      | None => r = if String.eqb s "" then "UNKNOWN"%string else s
      end in
    let by_country (address : list (string * json)) : Prop :=
      match lookup "country_code" address with
      | Some (JStr country_code) => selected (str_upper country_code)
      | Some _ => r = "UNKNOWN"%string
      | None => selected (str_upper EmptyString)
      end in
    match lookup "state" address with
    | Some (JStr (String c state)) => selected (String c state)
    | Some (JNum (Int z)) =>
        if z =? 0 then by_country address else r = "UNKNOWN"%string
    | Some (JNum (Float x)) =>
        if is_zero x then by_country address else r = "UNKNOWN"%string
    | Some (JBool true) | Some (JList (_ :: _)) | Some (JDict (_ :: _)) =>
        r = "UNKNOWN"%string
    | None | Some JNone | Some (JStr EmptyString) | Some (JBool false)
    | Some (JList []) | Some (JDict []) =>
        by_country address
    end).
  { intros address. cbv zeta. specialize (Hc address). cbv zeta in Hc.
    cbn [dict_get bind] in Hc |- *.
    destruct (lookup "state" address) as [[|[]|[z|x]|[|c state]|[|]|[|]]|];
      cbn [truthy negb bind String.eqb]; try exact Hc; try reflexivity.
    - destruct (z =? 0); cbn [negb bind]; [exact Hc|reflexivity].
    - destruct (is_zero x); cbn [negb bind]; [exact Hc|reflexivity].
    - apply reverse_geocode_selected. }
  destruct (lookup "address" body) as [[| | | | |address]|];
    cbn [bind dict_get]; try reflexivity.
  - apply Hs.
  - apply (Hs []).
Qed.

(** Without a state the country code is returned in upper case. *)
Example reverse_geocode_state_country_code :
  reverse_geocode_state lower_ascii upper_ascii
    (HttpBody (JDict [("address"%string,
                       JDict [("country_code"%string, JStr "us")])]))
  = "US"%string.
Proof. reflexivity. Qed.

(** An answer naming Texas is mapped to its code. *)
Example reverse_geocode_state_texas :
  reverse_geocode_state lower_ascii upper_ascii texas_reply = "TX"%string.
Proof. reflexivity. Qed.

(** C9 as stated fails: for a state outside the table the state name itself
    is returned, which is neither a two-letter code nor ['UNKNOWN']. *)
Lemma reverse_geocode_state_unmapped :
  reverse_geocode_state lower_ascii upper_ascii ohio_reply = "Ohio"%string /\
  "Ohio"%string <> "UNKNOWN"%string /\
  String.length "Ohio" <> 2%nat.
Proof. repeat split; [discriminate|cbn; lia]. Qed.

(* ===================================================================== *)
(** * The speed deriver *)
(* ===================================================================== *)

Section SpeedFacts.
Context {M : MathLib}.

(** The distance written out in [calculate_per_minute_speeds] is
    [haversine_distance]. *)
Lemma speed_between_haversine route_points i :
  speed_between route_points i
  = (p <- getitem route_points i ;;
     q <- getitem route_points (i + 1) ;;
     distance_km <- haversine_distance (fst p) (snd p) (fst q) (snd q) ;;
     Ok (fmul distance_km (S754_finite false 8444249301319680 (-47)))).
Proof.
  unfold speed_between, haversine_distance.
  destruct (getitem route_points i) as [[lat1 lon1]|]; cbn [bind fst snd]; [|reflexivity].
  destruct (getitem route_points (i + 1)) as [[lat2 lon2]|]; cbn [bind fst snd];
    [|reflexivity].
  repeat match goal with
         | |- bind ?c _ = bind (bind ?c _) _ =>
             destruct c; cbn [bind]; [|reflexivity]
         end.
  reflexivity.
Qed.

Lemma calculate_per_minute_speeds_map route_points :
  calculate_per_minute_speeds route_points
  = map_result (speed_between route_points) (py_range (len route_points - 1)).
Proof.
  unfold calculate_per_minute_speeds. rewrite for_each_append.
  now destruct (map_result _ _).
Qed.
End SpeedFacts.

(** C7.  [calculate_per_minute_speeds] returns [len(points) - 1] values, the
    [i]-th being the haversine distance (Earth radius 6371 km) between
    points [i] and [i + 1] multiplied by 60.0; an empty or single-point
    input gives the empty list.  It returns as soon as [math.sin],
    [math.cos], [math.sqrt], [math.asin] and [**] do on every adjacent
    pair. *)
Theorem calculate_per_minute_speeds_spec (M : MathLib) (route_points : list point) :
  (len route_points <= 1 -> calculate_per_minute_speeds route_points = Ok []) /\
  (forall speeds,
      calculate_per_minute_speeds route_points = Ok speeds ->
      len speeds = Z.max 0 (len route_points - 1) /\
      forall i lat1 lon1 lat2 lon2,
        0 <= i < len route_points - 1 ->
        getitem route_points i = Ok (lat1, lon1) ->
        getitem route_points (i + 1) = Ok (lat2, lon2) ->
        exists distance_km,
          haversine_distance lat1 lon1 lat2 lon2 = Ok distance_km /\
          getitem speeds i
          = Ok (fmul distance_km (S754_finite false 8444249301319680 (-47)))) /\
  ((forall i lat1 lon1 lat2 lon2,
       getitem route_points i = Ok (lat1, lon1) ->
       getitem route_points (i + 1) = Ok (lat2, lon2) ->
       exists distance_km, haversine_distance lat1 lon1 lat2 lon2 = Ok distance_km) ->
   exists speeds, calculate_per_minute_speeds route_points = Ok speeds).
Proof.
  rewrite calculate_per_minute_speeds_map. repeat split.
  - intros H. unfold py_range.
    replace (Z.to_nat (len route_points - 1)) with 0%nat by lia. reflexivity.
  - apply map_result_length in H. rewrite py_range_length in H. unfold len in *. lia.
  - intros i lat1 lon1 lat2 lon2 Hi Hp Hq.
    destruct (map_result_nth _ _ speeds (Z.to_nat i) i H) as (v & Hv & Hn).
    { apply py_range_nth. lia. }
    rewrite speed_between_haversine, Hp, Hq in Hv. cbn [bind fst snd] in Hv.
    destruct (haversine_distance lat1 lon1 lat2 lon2) as [d|]; cbn [bind] in Hv;
      [|discriminate].
    exists d. split; [reflexivity|]. inversion Hv; subst v.
    unfold getitem. replace (i <? 0) with false by (symmetry; apply Z.ltb_ge; lia).
    cbv zeta. replace (i <? 0) with false by (symmetry; apply Z.ltb_ge; lia).
    now rewrite Hn.
  - intros Hh. apply map_result_total. intros i Hi. apply py_range_In in Hi.
    rewrite speed_between_haversine.
    destruct (getitem_nonneg route_points i) as ([lat1 lon1] & Hp & _); [lia|].
    destruct (getitem_nonneg route_points (i + 1)) as ([lat2 lon2] & Hq & _); [lia|].
    rewrite Hp, Hq. cbn [bind fst snd].
    destruct (Hh i lat1 lon1 lat2 lon2 Hp Hq) as [d ->]. cbn [bind]. eauto.
Qed.

(** Two points 85.18 km apart, one minute apart: 5110.79 km/h. *)
Example calculate_per_minute_speeds_example :
  calculate_per_minute_speeds (M := tabulated_math) [point_A; point_B]
  = Ok [fmul distance_AB (S754_finite false 8444249301319680 (-47))].
Proof. vm_compute. reflexivity. Qed.

(* ===================================================================== *)
(** * The rolling mean *)
(* ===================================================================== *)

Lemma py_slice_in_range {A : Type} (l : list A) a b :
  0 <= a -> 0 <= b <= len l -> a <= len l ->
  py_slice l a b = firstn (Z.to_nat (b - a)) (skipn (Z.to_nat a) l).
Proof.
  intros Ha Hb Hal. unfold py_slice, slice_bound.
  replace (a <? 0) with false by (symmetry; apply Z.ltb_ge; lia).
  replace (b <? 0) with false by (symmetry; apply Z.ltb_ge; lia).
  now rewrite !Z.max_r, !Z.min_r by lia.
Qed.

Lemma window_length {A : Type} (l : list A) a b :
  0 <= a -> a <= b <= len l ->
  len (firstn (Z.to_nat (b - a)) (skipn (Z.to_nat a) l)) = b - a.
Proof.
  intros Ha Hb. unfold len in *. rewrite length_firstn, length_skipn. lia.
Qed.

Section RollingMeanFacts.
Variable float_sum : list float -> float.

Lemma window_mean_nonempty (ws : list float) :
  0 < len ws < 2 ^ 53 ->
  exists k, float_of_int (len ws) = Ok k /\
            window_mean float_sum ws = Ok (SFdiv prec emax (float_sum ws) k).
Proof.
  intros H. unfold window_mean, py_sum.
  destruct ws as [|w ws]; [unfold len in H; cbn in H; lia|].
  cbn [num_div to_float bind].
  destruct (float_of_int_exact (len (w :: ws)) H) as (m & e & -> & _).
  exists (S754_finite false m e). split; reflexivity.
Qed.

Lemma calculate_rolling_mean_speeds_map speeds window :
  window <= len speeds ->
  calculate_rolling_mean_speeds float_sum speeds window
  = map_result
      (fun i => window_mean float_sum
                  (py_slice speeds (Z.max 0 (i - window / 2))
                            (Z.min (len speeds) (i + window / 2 + 1))))
      (py_range (len speeds)).
Proof.
  intros H. unfold calculate_rolling_mean_speeds.
  replace (len speeds <? window) with false by (symmetry; apply Z.ltb_ge; lia).
  rewrite for_each_append. now destruct (map_result _ _).
Qed.
End RollingMeanFacts.

(** C8, as the code has it.  For a window that is not negative,
    [calculate_rolling_mean_speeds] returns the input unchanged when
    [len(speeds) < window]; otherwise it returns a list of the same length
    whose [i]-th element is [sum(w) / len(w)] for the speeds [w] at the
    indices [[max(0, i - window // 2), min(len(speeds), i + window // 2 + 1))],
    a range that contains [i]. *)
Theorem calculate_rolling_mean_speeds_spec
        (float_sum : list float -> float) (speeds : list float) (window : Z) :
  0 <= window -> len speeds < 2 ^ 53 ->
  (len speeds < window ->
   calculate_rolling_mean_speeds float_sum speeds window = Ok speeds) /\
  (window <= len speeds ->
   exists rolling_means,
     calculate_rolling_mean_speeds float_sum speeds window = Ok rolling_means /\
     len rolling_means = len speeds /\
     forall i, 0 <= i < len speeds ->
       let start_idx := Z.max 0 (i - window / 2) in
       let end_idx := Z.min (len speeds) (i + window / 2 + 1) in
       let w := firstn (Z.to_nat (end_idx - start_idx))
                       (skipn (Z.to_nat start_idx) speeds) in
       start_idx <= i < end_idx /\
       len w = end_idx - start_idx /\
       exists k, float_of_int (len w) = Ok k /\
                 getitem rolling_means i = Ok (SFdiv prec emax (float_sum w) k)).
Proof.
  intros Hw Hlen. split.
  - intros H. unfold calculate_rolling_mean_speeds.
    now replace (len speeds <? window) with true by (symmetry; apply Z.ltb_lt; lia).
  - intros H. rewrite calculate_rolling_mean_speeds_map by assumption.
    assert (Hhalf : 0 <= window / 2) by (apply Z.div_pos; lia).
    assert (Hstep : forall i, 0 <= i < len speeds ->
              let start_idx := Z.max 0 (i - window / 2) in
              let end_idx := Z.min (len speeds) (i + window / 2 + 1) in
              let w := firstn (Z.to_nat (end_idx - start_idx))
                              (skipn (Z.to_nat start_idx) speeds) in
              start_idx <= i < end_idx /\ len w = end_idx - start_idx /\
              exists k, float_of_int (len w) = Ok k /\
                window_mean float_sum (py_slice speeds start_idx end_idx)
                = Ok (SFdiv prec emax (float_sum w) k)).
    { intros i Hi start_idx end_idx w.
      assert (Hr : start_idx <= i < end_idx) by (subst start_idx end_idx; lia).
      assert (Hl : len w = end_idx - start_idx).
      { subst w. apply window_length; subst start_idx end_idx; lia. }
      split; [exact Hr|]. split; [exact Hl|].
      rewrite py_slice_in_range by (subst start_idx end_idx; lia). fold w.
      apply window_mean_nonempty. subst start_idx end_idx. lia. }
    destruct (map_result_total
                (fun i => window_mean float_sum
                            (py_slice speeds (Z.max 0 (i - window / 2))
                               (Z.min (len speeds) (i + window / 2 + 1))))
                (py_range (len speeds))) as [means Hmeans].
    { intros i Hi. apply py_range_In in Hi.
      destruct (Hstep i Hi) as (_ & _ & k & _ & ->). eauto. }
    exists means. split; [exact Hmeans|]. split.
    { apply map_result_length in Hmeans. rewrite py_range_length in Hmeans.
      unfold len in *. lia. }
    intros i Hi. cbv zeta.
    destruct (Hstep i Hi) as (Hr & Hl & k & Hk & Hm). cbv zeta in Hr, Hl, Hk, Hm.
    split; [exact Hr|]. split; [exact Hl|]. exists k. split; [exact Hk|].
    destruct (map_result_nth _ _ means (Z.to_nat i) i Hmeans) as (v & Hv & Hn).
    { apply py_range_nth. lia. }
    cbv beta in Hv. rewrite Hm in Hv. inversion Hv; subst v.
    unfold getitem. replace (i <? 0) with false by (symmetry; apply Z.ltb_ge; lia).
    cbv zeta. replace (i <? 0) with false by (symmetry; apply Z.ltb_ge; lia).
    now rewrite Hn.
Qed.

(** The theorem applies to three speeds and the default window 5 (returned
    unchanged) and leaves the second conjunct for windows up to 3. *)
Lemma calculate_rolling_mean_speeds_spec_witness :
  let speeds := [S754_finite false 5629499534213120 (-46);
                 S754_finite false 5629499534213120 (-46);
                 S754_finite false 5770236022568448 (-46)] in
  calculate_rolling_mean_speeds float_sum_left speeds 5 = Ok speeds.
Proof.
  cbv zeta.
  apply (calculate_rolling_mean_speeds_spec float_sum_left _ 5).
  - lia.
  - vm_compute. reflexivity.
  - vm_compute. reflexivity.
Defined.

(** C8 as stated fails for a negative window: the slice of every index is
    empty and the division by its length raises. *)
Lemma calculate_rolling_mean_speeds_negative_window :
  calculate_rolling_mean_speeds
    float_sum_left [S754_finite false 5629499534213120 (-46)] (-1)
  = Raise ZeroDivisionError.
Proof. reflexivity. Qed.

(* ===================================================================== *)
(** * The fallback interpolator *)
(* ===================================================================== *)

(** The point [interpolate_route] computes for one minute. *)
Lemma interpolate_route_map start_lat start_lon end_lat end_lon T :
  interpolate_route start_lat start_lon end_lat end_lon T
  = map_result
      (fun minute =>
         ratio <- minute_ratio minute T ;;
         dlat <- fmul_num (fsub end_lat start_lat) ratio ;;
         dlon <- fmul_num (fsub end_lon start_lon) ratio ;;
         Ok (fadd start_lat dlat, fadd start_lon dlon))
      (py_range (T + 1)).
Proof.
  unfold interpolate_route.
  rewrite (for_each_ext _
             (fun acc minute =>
                p <- (ratio <- minute_ratio minute T ;;
                      dlat <- fmul_num (fsub end_lat start_lat) ratio ;;
                      dlon <- fmul_num (fsub end_lon start_lon) ratio ;;
                      Ok (fadd start_lat dlat, fadd start_lon dlon)) ;;
                Ok (acc ++ [p]))).
  - rewrite for_each_append. now destruct (map_result _ _).
  - intros acc minute _.
    destruct (minute_ratio minute T) as [ratio|]; cbn [bind]; [|reflexivity].
    destruct (fmul_num (fsub end_lat start_lat) ratio); cbn [bind]; [|reflexivity].
    destruct (fmul_num (fsub end_lon start_lon) ratio); reflexivity.
Qed.

(** The ratio of a minute of the loop is a float, or the integer 0. *)
Lemma minute_ratio_float minute T :
  0 <= minute <= T ->
  exists r, minute_ratio minute T = Ok r /\ exists x, to_float r = Ok x.
Proof.
  intros Hm. unfold minute_ratio. destruct (Z.ltb_spec 0 T) as [HT|HT].
  - cbn [num_div]. destruct (int_true_div_small minute T) as (x & -> & _); try lia.
    cbn [bind]. eexists; split; [reflexivity|]. now exists x.
  - eexists; split; [reflexivity|]. now exists (S754_zero false).
Qed.

Lemma minute_ratio_first T :
  0 <= T ->
  exists r, minute_ratio 0 T = Ok r /\ to_float r = Ok (S754_zero false).
Proof.
  intros HT. unfold minute_ratio. destruct (Z.ltb_spec 0 T) as [H|H].
  - exists (Float (S754_zero false)). split; [|reflexivity].
    cbn [num_div]. unfold int_true_div.
    replace (T =? 0) with false by (symmetry; apply Z.eqb_neq; lia).
    destruct T; try lia. reflexivity.
  - exists (Int 0). split; reflexivity.
Qed.

Lemma minute_ratio_last T :
  1 <= T -> minute_ratio T T = Ok (Float one).
Proof.
  intros HT. unfold minute_ratio.
  replace (0 <? T) with true by (symmetry; apply Z.ltb_lt; lia).
  cbn [num_div]. now rewrite int_true_div_self by lia.
Qed.

Lemma interpolate_route_total start_lat start_lon end_lat end_lon T :
  0 <= T ->
  exists pts, interpolate_route start_lat start_lon end_lat end_lon T = Ok pts /\
              len pts = T + 1.
Proof.
  intros HT. rewrite interpolate_route_map.
  match goal with
  | |- exists pts, map_result ?f ?l = Ok pts /\ _ =>
      destruct (map_result_total f l) as [pts Hpts]
  end.
  - intros m Hm. apply py_range_In in Hm.
    destruct (minute_ratio_float m T) as (r & -> & x & Hx); [lia|].
    cbn [bind]. unfold fmul_num. rewrite Hx. cbn [bind]. eauto.
  - exists pts. split; [exact Hpts|].
    apply map_result_length in Hpts. rewrite py_range_length in Hpts.
    unfold len, point in *. lia.
Qed.

(** [x + 0.0 == x] for a finite [x]. *)
Lemma float_eq_refl_finite x : is_finite x = true -> float_eq x x = true.
Proof.
  destruct x as [s|s| |s m e]; try discriminate; intros _; [reflexivity|].
  unfold float_eq, SFeqb, SFcompare.
  rewrite Z.compare_refl, Pos.compare_cont_refl. now destruct s.
Qed.

Lemma fadd_zero x s :
  is_finite x = true -> float_eq (fadd x (S754_zero s)) x = true.
Proof.
  destruct x as [sx|sx| |sx m e]; try discriminate; intros _.
  - now destruct sx, s.
  - cbn [fadd SFadd]. now apply float_eq_refl_finite.
Qed.

Lemma fmul_zero_finite x :
  is_finite x = true -> exists s, fmul x (S754_zero false) = S754_zero s.
Proof.
  destruct x as [sx|sx| |sx m e]; try discriminate; intros _; cbn; eauto.
Qed.

(** The first and the last point of the interpolated polyline. *)
Lemma interpolate_route_first start_lat start_lon end_lat end_lon T pts :
  0 <= T ->
  is_finite start_lat = true -> is_finite start_lon = true ->
  is_finite (fsub end_lat start_lat) = true ->
  is_finite (fsub end_lon start_lon) = true ->
  interpolate_route start_lat start_lon end_lat end_lon T = Ok pts ->
  exists p, getitem pts 0 = Ok p /\ point_eq p (start_lat, start_lon) = true.
Proof.
  intros HT F1 F2 F3 F4 H. rewrite interpolate_route_map in H.
  destruct (map_result_nth _ _ pts (Z.to_nat 0) 0 H) as (p & Hp & Hn).
  { apply py_range_nth. lia. }
  destruct (minute_ratio_first T HT) as (r & Hr & Hx).
  rewrite Hr in Hp. cbn [bind] in Hp. unfold fmul_num in Hp.
  rewrite Hx in Hp. cbn [bind] in Hp. inversion Hp; subst p; clear Hp.
  eexists. split.
  - unfold getitem. cbn [Z.ltb Z.compare]. cbv zeta. cbn [Z.ltb Z.compare].
    rewrite Hn. reflexivity.
  - destruct (fmul_zero_finite _ F3) as [s1 ->].
    destruct (fmul_zero_finite _ F4) as [s2 ->].
    unfold point_eq. cbn [fst snd]. now rewrite !fadd_zero.
Qed.

Lemma interpolate_route_last start_lat start_lon end_lat end_lon T pts :
  1 <= T ->
  interpolate_route start_lat start_lon end_lat end_lon T = Ok pts ->
  getitem pts (-1)
  = Ok (fadd start_lat (fmul (fsub end_lat start_lat) one),
        fadd start_lon (fmul (fsub end_lon start_lon) one)).
Proof.
  intros HT H. rewrite interpolate_route_map in H.
  pose proof (map_result_length _ _ _ H) as HL. rewrite py_range_length in HL.
  destruct (map_result_nth _ _ pts (Z.to_nat T) T H) as (p & Hp & Hn).
  { apply py_range_nth. lia. }
  rewrite minute_ratio_last in Hp by lia. cbn in Hp. inversion Hp; subst p; clear Hp.
  rewrite getitem_last by (intros ->; cbn in HL; lia).
  unfold getitem, len. rewrite HL.
  replace (Z.of_nat (Z.to_nat (T + 1)) - 1) with T by lia.
  replace (T <? 0) with false by (symmetry; apply Z.ltb_ge; lia).
  cbv zeta. replace (T <? 0) with false by (symmetry; apply Z.ltb_ge; lia).
  now rewrite Hn.
Qed.

(** From latitude 40.0 to latitude 0.1 the last interpolated latitude is
    0.10000000000000142, whatever the duration: [end - start] is rounded. *)
Example interpolate_route_last_rounded T pts :
  1 <= T ->
  interpolate_route (S754_finite false 5629499534213120 (-47))
                    (S754_finite true 5277655813324800 (-46))
                    (S754_finite false 7205759403792794 (-56))
                    (S754_finite true 5277655813324800 (-46)) T = Ok pts ->
  getitem pts (-1)
  = Ok (S754_finite false 7205759403792896 (-56),
        S754_finite true 5277655813324800 (-46)).
Proof.
  intros HT H. rewrite (interpolate_route_last _ _ _ _ T pts HT H).
  vm_compute. reflexivity.
Qed.

(** A polyline of [m + 1] points is resampled to itself when the index
    computation is exact for [m]. *)
Lemma sample_route_to_minutes_exact {A : Type} (P : list A) (m : Z) :
  0 <= m -> len P = m + 1 -> resample_exact m = true ->
  sample_route_to_minutes P m = Ok P.
Proof.
  intros Hm HP Hex. destruct (Z.eq_dec m 0) as [->|Hm0].
  { apply sample_route_to_minutes_short. lia. }
  rewrite sample_route_to_minutes_map by lia. rewrite HP.
  rewrite (map_result_ext _ (fun i => getitem P i)).
  - rewrite <- HP. apply map_result_getitem_id.
  - intros k Hk. apply py_range_In in Hk.
    rewrite resample_exact_spec by (trivial; lia). reflexivity.
Qed.

(* ===================================================================== *)
(** * The fallback path of [routing_osrm_api.py] *)
(* ===================================================================== *)

Lemma fmul_int_ok x k :
  Zdigits2 k <= 900 -> 0 <= k -> exists y, fmul_int x k = Ok y.
Proof.
  intros Hd Hk. unfold fmul_int.
  destruct (float_of_int_small k 900) as (y & -> & _); try lia.
  cbn [bind]. eauto.
Qed.

Lemma fallback_minutes_inv d T :
  fallback_minutes d = Ok T ->
  exists duration_hours m,
    fdiv_int d 80 = Ok duration_hours /\
    fmul_int duration_hours 60 = Ok m /\
    int_of_float m = Ok T.
Proof.
  unfold fallback_minutes.
  destruct (fdiv_int d 80) as [dh|] eqn:Edh; cbn [bind]; [|discriminate].
  destruct (fmul_int dh 60) as [m|] eqn:Em; cbn [bind]; [|discriminate].
  intros H. exists dh, m. auto.
Qed.

(** The example regions: distances and derived durations. *)
Example haversine_distance_examples :
  haversine_distance (M := tabulated_math)
    (fst point_A) (snd point_A) (fst point_B) (snd point_B) = Ok distance_AB /\
  haversine_distance (M := tabulated_math)
    (fst point_A) (snd point_A) (fst point_C) (snd point_C) = Ok distance_AC /\
  haversine_distance (M := tabulated_math)
    (fst point_A) (snd point_A) (fst point_D) (snd point_D) = Ok distance_AD /\
  fallback_minutes distance_AB = Ok 63 /\
  fallback_minutes distance_AC = Ok 0 /\
  fallback_minutes distance_AD = Ok 22.
Proof. repeat split; vm_compute; reflexivity. Qed.

Section FallbackFacts.
Context {M : MathLib}.
Variable metros : list metro.
Variable osrm : point -> point -> osrm_reply.
Variable random_uniform : float.

(** [_fallback_linear_route] returns the interpolated polyline together
    with the distance and the duration derived from it. *)
Lemma fallback_linear_route_ok start_lat start_lon end_lat end_lon d T :
  haversine_distance start_lat start_lon end_lat end_lon = Ok d ->
  fallback_minutes d = Ok T -> 0 <= T ->
  exists pts dh rd,
    interpolate_route start_lat start_lon end_lat end_lon T = Ok pts /\
    len pts = T + 1 /\
    fdiv_int d 80 = Ok dh /\
    RoutingOsrmApi._fallback_linear_route start_lat start_lon end_lat end_lon
    = Ok rd /\
    route_points rd = pts /\ distance_km rd = d /\ duration_hours rd = dh.
Proof.
  intros Hd HT H0.
  destruct (fallback_minutes_inv d T HT) as (dh & m & Hdh & Hm & Hi).
  destruct (interpolate_route_total start_lat start_lon end_lat end_lon T H0)
    as (pts & Hpts & Hlen).
  destruct (fmul_int_ok d 1000) as [meters Hmeters]; [cbn; lia|lia|].
  destruct (fmul_int_ok dh 3600) as [seconds Hseconds]; [cbn; lia|lia|].
  exists pts, dh. eexists. split; [exact Hpts|]. split; [exact Hlen|].
  split; [exact Hdh|].
  unfold RoutingOsrmApi._fallback_linear_route.
  rewrite Hd. cbn [bind]. rewrite Hdh. cbn [bind]. rewrite Hm. cbn [bind].
  rewrite Hi. cbn [bind]. rewrite Hpts. cbn [bind].
  rewrite Hmeters. cbn [bind]. rewrite Hseconds. cbn [bind].
  split; [reflexivity|]. cbn. auto.
Qed.

(** [generate_trajectory] on the fallback path: the interpolated polyline
    goes through the resampler. *)
Lemma generate_trajectory_fallback_path
      start end_ avg start_lat start_lon end_lat end_lon e d T :
  scan_metros metros start end_ = (Some (start_lat, start_lon), Some (end_lat, end_lon)) ->
  osrm_try (osrm (start_lat, start_lon) (end_lat, end_lon)) = Raise e ->
  haversine_distance start_lat start_lon end_lat end_lon = Ok d ->
  fallback_minutes d = Ok T -> 0 <= T < 2 ^ 53 ->
  exists pts S t,
    interpolate_route start_lat start_lon end_lat end_lon T = Ok pts /\
    len pts = T + 1 /\
    sample_route_to_minutes pts T = Ok S /\
    len S = T + 1 /\
    RoutingOsrmApi.generate_trajectory metros osrm random_uniform start end_ avg
    = Ok t /\
    start_metro t = start /\ end_metro t = end_ /\
    traj_distance_km t = d /\ duration_minutes t = T /\
    traj_route_points t = S.
Proof.
  intros Hscan Hfail Hd HT HB.
  destruct (fallback_linear_route_ok _ _ _ _ d T Hd HT ltac:(lia))
    as (pts & dh & rd & Hpts & Hlen & Hdh & Hrd & Hrp & Hkm & Hh).
  destruct (fallback_minutes_inv d T HT) as (dh' & m & Hdh' & Hm & Hi).
  assert (dh' = dh) by congruence. subst dh'.
  assert (HS : exists S, sample_route_to_minutes pts T = Ok S /\ len S = T + 1).
  { destruct (Z.eq_dec T 0) as [->|HT0].
    - exists pts. split; [apply sample_route_to_minutes_short; lia|exact Hlen].
    - apply sample_route_to_minutes_total; lia. }
  destruct HS as (S & HS & HlenS).
  exists pts, S. eexists. split; [exact Hpts|]. split; [exact Hlen|].
  split; [exact HS|]. split; [exact HlenS|].
  unfold RoutingOsrmApi.generate_trajectory. rewrite Hscan.
  unfold RoutingOsrmApi.get_osrm_route. rewrite Hfail, Hrd. cbn [bind].
  unfold finish_trajectory. rewrite Hh, Hm. cbn [bind]. rewrite Hi. cbn [bind].
  rewrite Hrp, HS. cbn [bind]. rewrite Hkm.
  split; [reflexivity|]. cbn. auto 10.
Qed.
End FallbackFacts.

(* ===================================================================== *)
(** * Router failures *)
(* ===================================================================== *)

(** The ways the [try] block of [get_osrm_route] fails: the request raises,
    the answer cannot be decoded, the code is not ['Ok'], or no route is
    listed. *)
Lemma osrm_try_failures reply :
  (forall msg, reply = OsrmRequestFailed msg ->
               osrm_try reply = Raise (RequestException msg)) /\
  (forall e, reply = OsrmMalformed e -> osrm_try reply = Raise e) /\
  (forall code routes repr,
      reply = OsrmAnswer code routes repr ->
      code <> "Ok"%string \/ routes = [] ->
      osrm_try reply = Raise (ValueError ("OSRM didn't find the route: " ++ repr))).
Proof.
  split; [|split].
  - intros msg ->. reflexivity.
  - intros e ->. reflexivity.
  - intros code routes repr -> [H | ->]; cbn [osrm_try].
    + apply String.eqb_neq in H. now rewrite H.
    + now rewrite orb_true_r.
Qed.

(** C4, as the code has it.  When the OSRM request fails or finds no route,
    [generate_trajectory] of [routing_osrm_api.py], called with two names the
    registry scan finds, returns a trajectory built from the fallback
    interpolation, with [duration_minutes + 1] route points; in [routing.py]
    the same failure, and a failure of the Valhalla call when that router
    is configured, reaches the caller as a RuntimeError.  The
    distance [d] is what [haversine_distance] returns for the two regions
    and [T = int((d / 80) * 60)] the duration derived from it. *)
Theorem generate_trajectory_router_failure
        (M : MathLib) (metros : list metro) (valhalla_url : option string)
        (router_type : string) (osrm : point -> point -> osrm_reply)
        (valhalla : point -> point -> valhalla_reply) (random_uniform : float)
        (start end_ : string) (avg : option float)
        (start_lat start_lon end_lat end_lon : float) (e : exn) (d : float) (T : Z) :
  scan_metros metros start end_ = (Some (start_lat, start_lon), Some (end_lat, end_lon)) ->
  osrm_try (osrm (start_lat, start_lon) (end_lat, end_lon)) = Raise e ->
  haversine_distance start_lat start_lon end_lat end_lon = Ok d ->
  fallback_minutes d = Ok T -> 0 <= T < 2 ^ 53 ->
  (exists t,
      RoutingOsrmApi.generate_trajectory metros osrm random_uniform start end_ avg
      = Ok t /\
      start_metro t = start /\ end_metro t = end_ /\
      traj_distance_km t = d /\ duration_minutes t = T /\
      len (traj_route_points t) = T + 1) /\
  (String.eqb router_type "valhalla" = false ->
   exists msg,
     Routing.generate_trajectory metros valhalla_url router_type osrm valhalla
                                 random_uniform start end_ avg
     = Raise (RuntimeError msg)) /\
  (forall e',
      String.eqb router_type "valhalla" = true ->
      Routing.valhalla_try valhalla_url
        (valhalla (start_lat, start_lon) (end_lat, end_lon)) = Raise e' ->
      exists msg,
        Routing.generate_trajectory metros valhalla_url router_type osrm valhalla
                                    random_uniform start end_ avg
        = Raise (RuntimeError msg)).
Proof.
  intros Hscan Hfail Hd HT HB. split; [|split].
  - destruct (generate_trajectory_fallback_path metros osrm random_uniform
                start end_ avg _ _ _ _ e d T Hscan Hfail Hd HT HB)
      as (pts & S & t & _ & _ & _ & HlenS & Ht & H1 & H2 & H3 & H4 & H5).
    exists t. rewrite H5. auto 10.
  - intros Hr. unfold Routing.generate_trajectory. rewrite Hscan, Hr.
    unfold Routing.get_osrm_route. rewrite Hfail.
    destruct e; cbn [bind]; eauto.
  - intros e' Hr Hv. unfold Routing.generate_trajectory. rewrite Hscan, Hr.
    unfold Routing.get_valhalla_route. rewrite Hv.
    destruct e'; cbn [bind]; eauto.
Qed.

(** The theorem applies to the regions A and B of the example registry when
    the router cannot be reached. *)
Lemma generate_trajectory_router_failure_witness :
  (exists t,
      RoutingOsrmApi.generate_trajectory (M := tabulated_math) example_metros
        osrm_down eighty "A" "B" None = Ok t /\
      start_metro t = "A"%string /\ end_metro t = "B"%string /\
      traj_distance_km t = distance_AB /\ duration_minutes t = 63 /\
      len (traj_route_points t) = 63 + 1) /\
  (String.eqb "osrm" "valhalla" = false ->
   exists msg,
     Routing.generate_trajectory example_metros None "osrm" osrm_down
       valhalla_down eighty "A" "B" None = Raise (RuntimeError msg)) /\
  (forall e',
      String.eqb "osrm" "valhalla" = true ->
      Routing.valhalla_try None
        (valhalla_down (fst point_A, snd point_A) (fst point_B, snd point_B))
      = Raise e' ->
      exists msg,
        Routing.generate_trajectory example_metros None "osrm" osrm_down
          valhalla_down eighty "A" "B" None = Raise (RuntimeError msg)).
Proof.
  apply (generate_trajectory_router_failure
           tabulated_math example_metros None "osrm" osrm_down valhalla_down
           eighty "A" "B" None (fst point_A) (snd point_A) (fst point_B)
           (snd point_B) (RequestException "Connection timed out")
           distance_AB 63).
  - reflexivity.
  - reflexivity.
  - vm_compute. reflexivity.
  - vm_compute. reflexivity.
  - split; [lia|reflexivity].
Defined.

(** C4 as stated fails for [routing.py]: with the router down, the call for
    the registered regions A and B raises. *)
Lemma generate_trajectory_router_failure_raises :
  Routing.generate_trajectory example_metros None "osrm" osrm_down valhalla_down
    eighty "A" "B" None
  = Raise (RuntimeError "OSRM API failed: Connection timed out").
Proof. reflexivity. Qed.

(** C5, as the code has it.  On the fallback path the route points of the
    trajectory are the interpolated polyline passed through the resampler:
    [sample_route_to_minutes(interpolate_route(start, end, T), T)].  They are
    [T + 1] points, each a point of the interpolated polyline, and they are
    the interpolated polyline itself when the index computation of the
    resampler is exact for [T]. *)
Theorem generate_trajectory_fallback_points
        (M : MathLib) (metros : list metro)
        (osrm : point -> point -> osrm_reply) (random_uniform : float)
        (start end_ : string) (avg : option float)
        (start_lat start_lon end_lat end_lon : float) (e : exn) (d : float) (T : Z) :
  scan_metros metros start end_ = (Some (start_lat, start_lon), Some (end_lat, end_lon)) ->
  osrm_try (osrm (start_lat, start_lon) (end_lat, end_lon)) = Raise e ->
  haversine_distance start_lat start_lon end_lat end_lon = Ok d ->
  fallback_minutes d = Ok T -> 0 <= T < 2 ^ 53 ->
  exists pts S t,
    interpolate_route start_lat start_lon end_lat end_lon T = Ok pts /\
    len pts = T + 1 /\
    sample_route_to_minutes pts T = Ok S /\
    RoutingOsrmApi.generate_trajectory metros osrm random_uniform start end_ avg
    = Ok t /\
    duration_minutes t = T /\
    traj_route_points t = S /\
    len S = T + 1 /\
    (forall p, In p S -> In p pts) /\
    (resample_exact T = true -> S = pts).
Proof.
  intros Hscan Hfail Hd HT HB.
  destruct (generate_trajectory_fallback_path metros osrm random_uniform
              start end_ avg _ _ _ _ e d T Hscan Hfail Hd HT HB)
    as (pts & S & t & Hpts & Hlen & HS & HlenS & Ht & _ & _ & _ & H4 & H5).
  exists pts, S, t. repeat (split; [assumption|]). split.
  - intros p Hp.
    destruct (Z.le_gt_cases (len pts) 1) as [Hl|Hl].
    + rewrite sample_route_to_minutes_short in HS by assumption. congruence.
    + rewrite sample_route_to_minutes_map in HS by assumption.
      destruct (map_result_In _ _ _ _ HS Hp) as (m & _ & Hm).
      destruct (point_idx (len pts) m T); cbn [bind] in Hm; [|discriminate].
      eapply getitem_In; eassumption.
  - intros Hex.
    rewrite sample_route_to_minutes_exact in HS by (trivial; lia). congruence.
Qed.

(** The theorem applies to the regions A and B of the example registry. *)
Lemma generate_trajectory_fallback_points_witness :
  exists pts S t,
    interpolate_route (fst point_A) (snd point_A) (fst point_B) (snd point_B) 63
    = Ok pts /\
    len pts = 63 + 1 /\
    sample_route_to_minutes pts 63 = Ok S /\
    RoutingOsrmApi.generate_trajectory (M := tabulated_math) example_metros
      osrm_down eighty "A" "B" None = Ok t /\
    duration_minutes t = 63 /\
    traj_route_points t = S /\
    len S = 63 + 1 /\
    (forall p, In p S -> In p pts) /\
    (resample_exact 63 = true -> S = pts).
Proof.
  apply (generate_trajectory_fallback_points
           tabulated_math example_metros osrm_down eighty "A" "B" None
           (fst point_A) (snd point_A) (fst point_B) (snd point_B)
           (RequestException "Connection timed out") distance_AB 63).
  - reflexivity.
  - reflexivity.
  - vm_compute. reflexivity.
  - vm_compute. reflexivity.
  - split; [lia|reflexivity].
Defined.

(** C5 as stated fails: from A to D the fallback derives 22 minutes, and the
    route points of the trajectory differ from the interpolated polyline
    (the point of minute 15 is the interpolated point of minute 14). *)
Lemma generate_trajectory_fallback_resampled :
  exists t pts,
    RoutingOsrmApi.generate_trajectory (M := tabulated_math) example_metros
      osrm_down eighty "A" "D" None = Ok t /\
    duration_minutes t = 22 /\
    interpolate_route (fst point_A) (snd point_A) (fst point_D) (snd point_D) 22
    = Ok pts /\
    traj_route_points t <> pts /\
    getitem (traj_route_points t) 15 = getitem pts 14 /\
    getitem (traj_route_points t) 15 <> getitem pts 15.
Proof.
  eexists. eexists.
  split; [vm_compute; reflexivity|].
  split; [reflexivity|].
  split; [vm_compute; reflexivity|].
  split; [|split].
  - intros H. apply (f_equal (fun l => nth_error l 15)) in H.
    vm_compute in H. discriminate.
  - vm_compute. reflexivity.
  - vm_compute. discriminate.
Qed.

(** C6, as the code has it.  On the fallback path between finite endpoints
    the duration is the haversine distance divided by 80.0, the polyline has
    [T + 1] points for [T = int(duration_hours * 60)], and its first point
    equals the start.  For [T >= 1] the last point is
    [start + (end - start) * 1.0], computed in binary64 on each coordinate;
    for [T = 0] the polyline is the single start point. *)
Theorem fallback_linear_route_endpoints
        (M : MathLib) (start_lat start_lon end_lat end_lon : float)
        (d : float) (T : Z) :
  haversine_distance start_lat start_lon end_lat end_lon = Ok d ->
  fallback_minutes d = Ok T -> 0 <= T ->
  is_finite start_lat = true -> is_finite start_lon = true ->
  is_finite (fsub end_lat start_lat) = true ->
  is_finite (fsub end_lon start_lon) = true ->
  exists rd first,
    RoutingOsrmApi._fallback_linear_route start_lat start_lon end_lat end_lon
    = Ok rd /\
    distance_km rd = d /\
    duration_hours rd = SFdiv prec emax d eighty /\
    len (route_points rd) = T + 1 /\
    getitem (route_points rd) 0 = Ok first /\
    point_eq first (start_lat, start_lon) = true /\
    (1 <= T ->
     getitem (route_points rd) (-1)
     = Ok (fadd start_lat (fmul (fsub end_lat start_lat) one),
           fadd start_lon (fmul (fsub end_lon start_lon) one))) /\
    (T = 0 -> route_points rd = [first]).
Proof.
  intros Hd HT H0 F1 F2 F3 F4.
  destruct (fallback_linear_route_ok _ _ _ _ d T Hd HT H0)
    as (pts & dh & rd & Hpts & Hlen & Hdh & Hrd & Hrp & Hkm & Hh).
  destruct (interpolate_route_first _ _ _ _ T pts H0 F1 F2 F3 F4 Hpts)
    as (first & Hfirst & Heq).
  exists rd, first. rewrite Hrp, Hh.
  split; [exact Hrd|]. split; [exact Hkm|]. split.
  { unfold fdiv_int in Hdh. change (float_of_int 80) with (Ok eighty) in Hdh.
    cbn in Hdh. congruence. }
  split; [exact Hlen|]. split; [exact Hfirst|]. split; [exact Heq|]. split.
  - intros H1. now apply interpolate_route_last with (T := T).
  - intros ->. destruct pts as [|p [|q pts]]; unfold len in Hlen; cbn in Hlen; try lia.
    cbn in Hfirst. congruence.
Qed.

(** The theorem applies to the regions A and B of the specification's
    example. *)
Lemma fallback_linear_route_endpoints_witness :
  exists rd first,
    RoutingOsrmApi._fallback_linear_route (M := tabulated_math)
      (fst point_A) (snd point_A) (fst point_B) (snd point_B) = Ok rd /\
    distance_km rd = distance_AB /\
    duration_hours rd = SFdiv prec emax distance_AB eighty /\
    len (route_points rd) = 63 + 1 /\
    getitem (route_points rd) 0 = Ok first /\
    point_eq first (fst point_A, snd point_A) = true /\
    (1 <= 63 ->
     getitem (route_points rd) (-1)
     = Ok (fadd (fst point_A) (fmul (fsub (fst point_B) (fst point_A)) one),
           fadd (snd point_A) (fmul (fsub (snd point_B) (snd point_A)) one))) /\
    (63 = 0 -> route_points rd = [first]).
Proof.
  apply (fallback_linear_route_endpoints
           tabulated_math (fst point_A) (snd point_A) (fst point_B) (snd point_B)
           distance_AB 63).
  - vm_compute. reflexivity.
  - vm_compute. reflexivity.
  - lia.
  - reflexivity.
  - reflexivity.
  - reflexivity.
  - reflexivity.
Defined.

(** On the specification's example the last interpolated point is B. *)
Example fallback_linear_route_example :
  exists rd,
    RoutingOsrmApi._fallback_linear_route (M := tabulated_math)
      (fst point_A) (snd point_A) (fst point_B) (snd point_B) = Ok rd /\
    getitem (route_points rd) 0 = Ok point_A /\
    getitem (route_points rd) (-1) = Ok point_B.
Proof. eexists. split; [vm_compute; reflexivity|]. split; reflexivity. Qed.

(** C6 as stated fails: from A to C, 0.85 km apart, the duration is 0
    minutes and the polyline is the single point A, so its last point is not
    C. *)
Lemma fallback_linear_route_last_not_end :
  exists rd last,
    RoutingOsrmApi._fallback_linear_route (M := tabulated_math)
      (fst point_A) (snd point_A) (fst point_C) (snd point_C) = Ok rd /\
    route_points rd = [point_A] /\
    getitem (route_points rd) (-1) = Ok last /\
    point_eq last point_C = false.
Proof.
  eexists. eexists. split; [vm_compute; reflexivity|].
  split; [reflexivity|]. split; reflexivity.
Qed.

(* ===================================================================== *)
(** * Further properties of the resampler and the interpolator *)
(* ===================================================================== *)

(** X1.  Resampling a non-empty polyline to 0 minutes returns its first
    point alone. *)
Theorem sample_route_to_minutes_zero {A : Type} (p : A) (rest : list A) :
  sample_route_to_minutes (p :: rest) 0 = Ok [p].
Proof.
  destruct rest as [|q rest]; [reflexivity|].
  rewrite sample_route_to_minutes_map by (unfold len; cbn [Datatypes.length]; lia).
  change (py_range (0 + 1)) with [0]. cbn [map_result].
  rewrite point_idx_no_duration by (unfold len; cbn [Datatypes.length]; lia).
  reflexivity.
Qed.

(** X2.  With a negative duration the loop does not run: a polyline of more
    than one point is resampled to the empty list, while a shorter one is
    returned as it is. *)
Theorem sample_route_to_minutes_negative {A : Type} (P : list A) (T : Z) :
  T < 0 ->
  sample_route_to_minutes P T = Ok (if len P <=? 1 then P else []).
Proof.
  intros HT. unfold sample_route_to_minutes.
  destruct (len P <=? 1); [reflexivity|].
  unfold py_range. replace (Z.to_nat (T + 1)) with 0%nat by lia. reflexivity.
Qed.

Lemma sample_route_to_minutes_negative_witness :
  sample_route_to_minutes [10; 20; 30] (-5)
  = Ok (if len [10; 20; 30] <=? 1 then [10; 20; 30] else []).
Proof. apply (sample_route_to_minutes_negative [10; 20; 30] (-5)). lia. Defined.

(** X3.  [interpolate_route] never raises, whatever the coordinates
    (infinite and NaN included), and returns [max(0, total_minutes + 1)]
    points. *)
Theorem interpolate_route_length (start_lat start_lon end_lat end_lon : float)
        (T : Z) :
  exists pts,
    interpolate_route start_lat start_lon end_lat end_lon T = Ok pts /\
    len pts = Z.max 0 (T + 1).
Proof.
  destruct (Z.le_gt_cases 0 T) as [HT|HT].
  - destruct (interpolate_route_total start_lat start_lon end_lat end_lon T HT)
      as (pts & H & L).
    exists pts. split; [exact H|lia].
  - exists []. split; [|unfold len; cbn; lia].
    unfold interpolate_route, py_range.
    replace (Z.to_nat (T + 1)) with 0%nat by lia. reflexivity.
Qed.

Lemma small_nonneg_finite B x : small_nonneg B x -> is_finite x = true.
Proof. intros [->|(m & e & -> & _)]; reflexivity. Qed.

Lemma minute_ratio_finite minute T :
  0 <= minute <= T ->
  exists r x, minute_ratio minute T = Ok r /\ to_float r = Ok x /\
              is_finite x = true /\ sign_false x.
Proof.
  intros Hm. unfold minute_ratio. destruct (Z.ltb_spec 0 T) as [HT|HT].
  - cbn [num_div].
    destruct (int_true_div_small minute T) as (x & Hx & Hs); try lia.
    rewrite Hx. cbn [bind]. exists (Float x), x.
    repeat split; [eapply small_nonneg_finite; eassumption|].
    eapply int_true_div_sign_false; [| |eassumption]; lia.
  - exists (Int 0), (S754_zero false). repeat split.
Qed.

Lemma fsub_self x : is_finite x = true -> fsub x x = S754_zero false.
Proof.
  destruct x as [s|s| |s m e]; try discriminate; intros _.
  - now destruct s.
  - unfold fsub. cbn [SFsub]. now rewrite Z.sub_diag.
Qed.

Lemma fmul_zero_l x :
  is_finite x = true -> sign_false x -> fmul (S754_zero false) x = S754_zero false.
Proof.
  destruct x as [s|s| |s m e]; try discriminate; cbn [sign_false];
    intros _ ->; reflexivity.
Qed.

(** X4.  Interpolating between two identical finite endpoints gives that
    point at every minute. *)
Theorem interpolate_route_same_endpoints (lat lon : float) (T : Z) (pts : list point) :
  is_finite lat = true -> is_finite lon = true ->
  interpolate_route lat lon lat lon T = Ok pts ->
  forall p, In p pts -> point_eq p (lat, lon) = true.
Proof.
  intros F1 F2 H p Hp. rewrite interpolate_route_map in H.
  destruct (map_result_In _ _ _ _ H Hp) as (m & Hm & Hq).
  apply py_range_In in Hm.
  destruct (minute_ratio_finite m T) as (r & x & Hr & Hx & Fx & Sx); [lia|].
  rewrite Hr in Hq. cbn [bind] in Hq. unfold fmul_num in Hq.
  rewrite Hx in Hq. cbn [bind] in Hq. inversion Hq; subst p; clear Hq.
  rewrite !fsub_self, !fmul_zero_l by assumption.
  unfold point_eq. cbn [fst snd]. now rewrite !fadd_zero.
Qed.

Lemma interpolate_route_same_endpoints_witness :
  point_eq point_A (fst point_A, snd point_A) = true.
Proof.
  apply (interpolate_route_same_endpoints (fst point_A) (snd point_A) 3
           [point_A; point_A; point_A; point_A]).
  - reflexivity.
  - reflexivity.
  - vm_compute. reflexivity.
  - now left.
Defined.

(* ===================================================================== *)
(** * Further properties of the rolling mean *)
(* ===================================================================== *)

Lemma map_result_first_error {A B : Type} (f : A -> result B) (e : exn) l :
  (forall a, In a l -> (exists b, f a = Ok b) \/ f a = Raise e) ->
  (exists a, In a l /\ f a = Raise e) ->
  map_result f l = Raise e.
Proof.
  induction l as [|a l IH]; intros Hall (a0 & Hin & Ha0); [contradiction|].
  cbn [map_result].
  destruct (Hall a (or_introl eq_refl)) as [[b Hb]|Hb]; rewrite Hb; cbn [bind];
    [|reflexivity].
  destruct Hin as [->|Hin]; [congruence|].
  rewrite IH; [reflexivity| |eauto].
  intros a' Ha'. apply Hall. now right.
Qed.

Lemma py_slice_length {A : Type} (l : list A) a b :
  len (py_slice l a b) <= len l.
Proof.
  unfold py_slice, len. rewrite length_firstn, length_skipn. lia.
Qed.

Lemma py_slice_empty {A : Type} (l : list A) a b :
  slice_bound (len l) b <= slice_bound (len l) a -> py_slice l a b = [].
Proof.
  intros H. unfold py_slice.
  replace (Z.to_nat (slice_bound (len l) b - slice_bound (len l) a)) with 0%nat by lia.
  reflexivity.
Qed.

Lemma window_mean_cases (float_sum : list float -> float) (ws : list float) :
  len ws < 2 ^ 53 ->
  (exists mean, window_mean float_sum ws = Ok mean) \/
  window_mean float_sum ws = Raise ZeroDivisionError.
Proof.
  intros H. destruct ws as [|w ws].
  - right. reflexivity.
  - left. destruct (window_mean_nonempty float_sum (w :: ws)) as (k & _ & ->).
    + unfold len in *. cbn [Datatypes.length] in *. lia.
    + eauto.
Qed.

(** X5.  A negative window on a non-empty list of speeds always raises
    ZeroDivisionError: some index has an empty window. *)
Theorem rolling_mean_negative_window_raises
        (float_sum : list float -> float) (speeds : list float) (window : Z) :
  window < 0 -> speeds <> [] -> len speeds < 2 ^ 53 ->
  calculate_rolling_mean_speeds float_sum speeds window = Raise ZeroDivisionError.
Proof.
  intros Hw Hne Hlen.
  assert (Hpos : 0 < len speeds).
  { destruct speeds; [congruence|unfold len; cbn [Datatypes.length]; lia]. }
  rewrite calculate_rolling_mean_speeds_map by lia.
  assert (Hh : window / 2 <= -1).
  { assert (window / 2 < 0) by (apply Z.div_lt_upper_bound; lia). lia. }
  apply map_result_first_error.
  - intros i _. apply window_mean_cases.
    pose proof (py_slice_length speeds (Z.max 0 (i - window / 2))
                  (Z.min (len speeds) (i + window / 2 + 1))). lia.
  - destruct (Z.lt_ge_cases (- (window / 2) - 1) (len speeds)) as [Hc|Hc].
    + exists (- (window / 2) - 1). split; [apply py_range_In; lia|].
      rewrite py_slice_empty; [reflexivity|].
      replace (- (window / 2) - 1 + window / 2 + 1) with 0 by lia.
      unfold slice_bound.
      replace (Z.min (len speeds) 0 <? 0) with false by (symmetry; apply Z.ltb_ge; lia).
      destruct (_ <? 0); lia.
    + exists (len speeds - 1). split; [apply py_range_In; lia|].
      rewrite py_slice_empty; [reflexivity|].
      unfold slice_bound.
      replace (Z.max 0 (len speeds - 1 - window / 2) <? 0) with false
        by (symmetry; apply Z.ltb_ge; lia).
      destruct (_ <? 0); lia.
Qed.

Lemma rolling_mean_negative_window_raises_witness :
  calculate_rolling_mean_speeds float_sum_left [eighty; eighty; eighty] (-4)
  = Raise ZeroDivisionError.
Proof.
  apply (rolling_mean_negative_window_raises float_sum_left
           [eighty; eighty; eighty] (-4)).
  - lia.
  - discriminate.
  - vm_compute. reflexivity.
Defined.

(** X6.  An even window [2k] smooths exactly as the odd window [2k + 1]:
    only [window // 2] enters the loop. *)
Theorem calculate_rolling_mean_speeds_even_window
        (float_sum : list float -> float) (speeds : list float) (k : Z) :
  0 <= k -> 2 * k + 1 <= len speeds ->
  calculate_rolling_mean_speeds float_sum speeds (2 * k)
  = calculate_rolling_mean_speeds float_sum speeds (2 * k + 1).
Proof.
  intros Hk Hlen.
  rewrite !calculate_rolling_mean_speeds_map by lia.
  replace ((2 * k + 1) / 2) with k by (apply Z.div_unique with (r := 1); lia).
  replace (2 * k / 2) with k by (apply Z.div_unique with (r := 0); lia).
  reflexivity.
Qed.

Lemma calculate_rolling_mean_speeds_even_window_witness :
  calculate_rolling_mean_speeds float_sum_left [eighty; eighty; eighty] (2 * 1)
  = calculate_rolling_mean_speeds float_sum_left [eighty; eighty; eighty] (2 * 1 + 1).
Proof.
  apply (calculate_rolling_mean_speeds_even_window float_sum_left
           [eighty; eighty; eighty] 1).
  - lia.
  - vm_compute. discriminate.
Defined.

(* ===================================================================== *)
(** * Further properties of the registry scan *)
(* ===================================================================== *)

Lemma scan_metros_snoc metros m start end_ :
  scan_metros (metros ++ [m]) start end_
  = scan_step start end_ (scan_metros metros start end_) m.
Proof. unfold scan_metros. now rewrite fold_left_app. Qed.

Lemma last_named_snoc metros m name :
  last_named (metros ++ [m]) name
  = if String.eqb (metro_name m) name
    then Some (metro_lat m, metro_lon m)
    else last_named metros name.
Proof.
  unfold last_named. rewrite rev_app_distr. cbn [rev app find].
  now destruct (String.eqb (metro_name m) name).
Qed.

Lemma scan_metros_last_named metros start end_ :
  start <> end_ ->
  scan_metros metros start end_ = (last_named metros start, last_named metros end_).
Proof.
  intros Hne. induction metros as [|m metros IH] using rev_ind; [reflexivity|].
  rewrite scan_metros_snoc, IH, !last_named_snoc. cbn [scan_step].
  destruct (String.eqb_spec (metro_name m) start) as [E1|E1];
    destruct (String.eqb_spec (metro_name m) end_) as [E2|E2];
    try reflexivity.
  congruence.
Qed.

(** X7.  When a name occurs several times in the registry, the scan keeps
    the coordinates of its last entry: for two different names the scan
    returns the last entry of each. *)
Theorem scan_metros_last_entry (metros : list metro) (start end_ : string) :
  start <> end_ ->
  scan_metros metros start end_ = (last_named metros start, last_named metros end_).
Proof. apply scan_metros_last_named. Qed.

Lemma scan_metros_last_entry_witness :
  scan_metros (example_metros ++ [ {| metro_name := "A";
                                      metro_lat := fst point_D;
                                      metro_lon := snd point_D |} ]) "A" "B"
  = (Some point_D, Some point_B).
Proof.
  apply (scan_metros_last_entry
           (example_metros ++ [ {| metro_name := "A";
                                   metro_lat := fst point_D;
                                   metro_lon := snd point_D |} ]) "A" "B").
  discriminate.
Defined.

Lemma last_named_unregistered metros name :
  ~ In name (map metro_name metros) -> last_named metros name = None.
Proof.
  intros H. unfold last_named.
  destruct (find _ (rev metros)) as [m|] eqn:E; [|reflexivity].
  apply find_some in E. destruct E as [Hin Heq].
  apply String.eqb_eq in Heq. exfalso. apply H.
  apply in_map_iff. exists m. split; [assumption|]. now apply in_rev.
Qed.

(** X8.  A name that is not in the registry makes [generate_trajectory]
    raise the "Metro region not found" ValueError in both source files,
    whatever the router would answer. *)
Theorem generate_trajectory_unknown_metro
        (M : MathLib) (metros : list metro) (valhalla_url : option string)
        (router_type : string) (osrm : point -> point -> osrm_reply)
        (valhalla : point -> point -> valhalla_reply) (random_uniform : float)
        (start end_ : string) (avg : option float) :
  ~ In start (map metro_name metros) \/ ~ In end_ (map metro_name metros) ->
  Routing.generate_trajectory metros valhalla_url router_type osrm valhalla
                              random_uniform start end_ avg
  = Raise (metro_not_found start end_) /\
  RoutingOsrmApi.generate_trajectory metros osrm random_uniform start end_ avg
  = Raise (metro_not_found start end_).
Proof.
  intros H.
  assert (Hscan : fst (scan_metros metros start end_) = None \/
                  snd (scan_metros metros start end_) = None).
  { destruct (String.eqb_spec start end_) as [->|Hne].
    - right. apply scan_metros_same.
    - rewrite scan_metros_last_named by assumption. cbn [fst snd].
      destruct H as [H|H]; [left|right]; now apply last_named_unregistered. }
  unfold Routing.generate_trajectory, RoutingOsrmApi.generate_trajectory.
  destruct (scan_metros metros start end_) as [[[slat slon]|] [[elat elon]|]];
    cbn [fst snd] in Hscan; split; try reflexivity;
    destruct Hscan; discriminate.
Qed.

Lemma generate_trajectory_unknown_metro_witness :
  Routing.generate_trajectory example_metros None "osrm" osrm_up valhalla_down
                              eighty "A" "Z" None
  = Raise (metro_not_found "A" "Z") /\
  RoutingOsrmApi.generate_trajectory (M := tabulated_math) example_metros osrm_up
                                     eighty "A" "Z" None
  = Raise (metro_not_found "A" "Z").
Proof.
  apply (generate_trajectory_unknown_metro
           tabulated_math example_metros None "osrm" osrm_up valhalla_down
           eighty "A" "Z" None).
  right. cbn. intros [H|[H|[H|[H|H]]]]; try discriminate; exact H.
Defined.

Lemma nth_error_NoDup_neq {A : Type} (l : list A) i j a b :
  NoDup l -> i <> j -> nth_error l i = Some a -> nth_error l j = Some b -> a <> b.
Proof.
  intros Hnd Hij Ha Hb ->. apply Hij.
  apply (proj1 (NoDup_nth_error l) Hnd).
  - apply nth_error_Some. congruence.
  - congruence.
Qed.

(** X9.  From a registry whose names are pairwise different,
    [get_random_metro_pair] draws two different names, and the registry scan
    of [generate_trajectory] finds both; the positions [i <> j] are the ones
    [random.sample] picks. *)
Theorem get_random_metro_pair_found (metros : list metro) (i j : nat) :
  NoDup (map metro_name metros) ->
  i <> j -> (i < List.length metros)%nat -> (j < List.length metros)%nat ->
  exists start end_ ps pe,
    get_random_metro_pair metros i j = Ok (start, end_) /\
    start <> end_ /\
    scan_metros metros start end_ = (Some ps, Some pe).
Proof.
  intros Hnd Hij Hi Hj. unfold get_random_metro_pair, random_sample_2.
  assert (Hlen : List.length (map metro_name metros) = List.length metros)
    by apply length_map.
  replace (len (map metro_name metros) <? 2) with false
    by (symmetry; apply Z.ltb_ge; unfold len; lia).
  destruct (nth_error (map metro_name metros) i) as [a|] eqn:Ea;
    [|apply nth_error_None in Ea; lia].
  destruct (nth_error (map metro_name metros) j) as [b|] eqn:Eb;
    [|apply nth_error_None in Eb; lia].
  assert (Hab : a <> b) by (eapply nth_error_NoDup_neq; eassumption).
  destruct (scan_metros_registered metros a b Hab) as (ps & pe & Hs).
  - eapply nth_error_In; eassumption.
  - eapply nth_error_In; eassumption.
  - exists a, b, ps, pe. auto.
Qed.

Lemma get_random_metro_pair_found_witness :
  exists start end_ ps pe,
    get_random_metro_pair example_metros 3 1 = Ok (start, end_) /\
    start <> end_ /\
    scan_metros example_metros start end_ = (Some ps, Some pe).
Proof.
  apply (get_random_metro_pair_found example_metros 3 1).
  - cbn. repeat constructor; cbn; intuition discriminate.
  - discriminate.
  - cbn. lia.
  - cbn. lia.
Defined.

(* ===================================================================== *)
(** * Further properties of the route fetchers *)
(* ===================================================================== *)

(** X10.  With the Valhalla router selected and no Valhalla URL configured,
    [generate_trajectory] of [routing.py] raises
    RuntimeError("Valhalla routing failed: Valhalla URL not configured") for
    every pair of names the scan finds; no request is made. *)
Theorem generate_trajectory_valhalla_not_configured
        (metros : list metro) (osrm : point -> point -> osrm_reply)
        (valhalla : point -> point -> valhalla_reply) (random_uniform : float)
        (start end_ : string) (avg : option float) (ps pe : point) :
  scan_metros metros start end_ = (Some ps, Some pe) ->
  Routing.generate_trajectory metros None "valhalla" osrm valhalla
                              random_uniform start end_ avg
  = Raise (RuntimeError "Valhalla routing failed: Valhalla URL not configured").
Proof.
  intros Hscan. unfold Routing.generate_trajectory. rewrite Hscan.
  destruct ps as [slat slon], pe as [elat elon]. reflexivity.
Qed.

Lemma generate_trajectory_valhalla_not_configured_witness :
  Routing.generate_trajectory example_metros None "valhalla" osrm_up valhalla_down
                              eighty "A" "B" None
  = Raise (RuntimeError "Valhalla routing failed: Valhalla URL not configured").
Proof.
  apply (generate_trajectory_valhalla_not_configured
           example_metros osrm_up valhalla_down eighty "A" "B" None
           point_A point_B).
  reflexivity.
Defined.

(** X11.  Whenever [generate_trajectory] of [routing.py] returns a
    trajectory through OSRM, [generate_trajectory] of [routing_osrm_api.py]
    returns the same trajectory, with the key [osrm_used] added. *)
Theorem generate_trajectory_files_agree
        (M : MathLib) (metros : list metro) (valhalla_url : option string)
        (router_type : string) (osrm : point -> point -> osrm_reply)
        (valhalla : point -> point -> valhalla_reply) (random_uniform : float)
        (start end_ : string) (avg : option float) (t : trajectory) :
  String.eqb router_type "valhalla" = false ->
  Routing.generate_trajectory metros valhalla_url router_type osrm valhalla
                              random_uniform start end_ avg = Ok t ->
  exists t',
    RoutingOsrmApi.generate_trajectory metros osrm random_uniform start end_ avg
    = Ok t' /\
    without_osrm_used t' = t /\ osrm_used t' = Some true.
Proof.
  intros Hr. unfold Routing.generate_trajectory, RoutingOsrmApi.generate_trajectory.
  rewrite Hr.
  destruct (scan_metros metros start end_) as [[[slat slon]|] [[elat elon]|]];
    try discriminate.
  unfold Routing.get_osrm_route, RoutingOsrmApi.get_osrm_route.
  destruct (osrm_try _) as [r|e]; [|destruct e; discriminate].
  cbn [bind]. unfold finish_trajectory.
  destruct (fmul_int (duration_hours r) 60) as [m|]; cbn [bind]; [|discriminate].
  destruct (int_of_float m) as [T|]; cbn [bind]; [|discriminate].
  destruct (sample_route_to_minutes (route_points r) T) as [S|]; cbn [bind];
    [|discriminate].
  intros H; inversion H; subst t; clear H.
  eexists. split; [reflexivity|]. split; reflexivity.
Qed.

Lemma generate_trajectory_files_agree_witness :
  exists t',
    RoutingOsrmApi.generate_trajectory (M := tabulated_math) example_metros osrm_up
                                       eighty "A" "B" None = Ok t' /\
    without_osrm_used t'
    = {| start_metro := "A"; end_metro := "B";
         traj_distance_km := S754_finite false 5994009629053420 (-46);
         duration_minutes := 2;
         avg_speed_kmh := eighty;
         traj_route_points := [point_A; point_D; point_B];
         osrm_used := None |} /\
    osrm_used t' = Some true.
Proof.
  apply (generate_trajectory_files_agree
           tabulated_math example_metros None "osrm" osrm_up valhalla_down
           eighty "A" "B" None).
  - reflexivity.
  - vm_compute. reflexivity.
Defined.

Lemma fdiv_int_ok x k :
  0 < k < 2 ^ 53 ->
  exists y, float_of_int k = Ok y /\ is_zero y = false /\
            fdiv_int x k = Ok (SFdiv prec emax x y).
Proof.
  intros Hk. unfold fdiv_int.
  destruct (float_of_int_exact k Hk) as (m & e & -> & _).
  eexists. repeat split.
Qed.

Lemma sample_route_to_minutes_ends {A : Type} (P S : list A) (T : Z) :
  1 < len P <= 2 ^ 53 -> 1 <= T ->
  sample_route_to_minutes P T = Ok S ->
  len S = T + 1 /\
  getitem S 0 = getitem P 0 /\ getitem S (-1) = getitem P (-1) /\
  forall p, In p S -> In p P.
Proof.
  intros HP HT HS. rewrite sample_route_to_minutes_map in HS by lia.
  pose proof (map_result_length _ _ _ HS) as HL. rewrite py_range_length in HL.
  assert (Hlen : len S = T + 1) by (unfold len; lia).
  assert (2 ^ 53 < 2 ^ 900) by (apply Z.pow_lt_mono_r; lia).
  split; [exact Hlen|]. split; [|split].
  - destruct (map_result_nth _ _ S (Z.to_nat 0) 0 HS) as (p & Hp & Hn).
    { apply py_range_nth. lia. }
    rewrite point_idx_first in Hp by lia. cbn [bind] in Hp.
    rewrite Hp. unfold getitem. cbn [Z.ltb Z.compare]. cbv zeta.
    cbn [Z.ltb Z.compare]. now rewrite Hn.
  - rewrite !getitem_last.
    + destruct (map_result_nth _ _ S (Z.to_nat T) T HS) as (p & Hp & Hn).
      { apply py_range_nth. lia. }
      rewrite point_idx_last in Hp by lia. cbn [bind] in Hp.
      rewrite Hp, Hlen. replace (T + 1 - 1) with T by lia.
      unfold getitem. replace (T <? 0) with false by (symmetry; apply Z.ltb_ge; lia).
      cbv zeta. replace (T <? 0) with false by (symmetry; apply Z.ltb_ge; lia).
      now rewrite Hn.
    + intros ->. unfold len in HP. cbn in HP. lia.
    + intros ->. unfold len in Hlen. cbn in Hlen. lia.
  - intros p Hp. destruct (map_result_In _ _ _ _ HS Hp) as (m & _ & Hm).
    destruct (point_idx (len P) m T); cbn [bind] in Hm; [|discriminate].
    eapply getitem_In; eassumption.
Qed.

(** X12.  On an OSRM answer with code ['Ok'], [generate_trajectory] uses the
    first route only: for a geometry of at least two coordinates and a
    duration of [T >= 1] minutes the trajectory has [T + 1] points, each a
    coordinate of the geometry with [lon, lat] swapped to [(lat, lon)], the
    first and the last being those of the geometry. *)
Theorem generate_trajectory_osrm_route
        (M : MathLib) (metros : list metro)
        (osrm : point -> point -> osrm_reply) (random_uniform : float)
        (start end_ : string) (avg : option float) (ps pe : point)
        (route : osrm_route) (others : list osrm_route) (repr : string) (T : Z) :
  scan_metros metros start end_ = (Some ps, Some pe) ->
  osrm ps pe = OsrmAnswer "Ok" (route :: others) repr ->
  1 < len (osrm_coordinates route) <= 2 ^ 53 ->
  route_minutes (osrm_duration route) = Ok T -> 1 <= T ->
  let swapped : list point :=
    map (fun c => (snd c, fst c)) (osrm_coordinates route) in
  exists t,
    RoutingOsrmApi.generate_trajectory metros osrm random_uniform start end_ avg
    = Ok t /\
    duration_minutes t = T /\
    len (traj_route_points t) = T + 1 /\
    getitem (traj_route_points t) 0 = getitem swapped 0 /\
    getitem (traj_route_points t) (-1) = getitem swapped (-1) /\
    forall p, In p (traj_route_points t) -> In p swapped.
Proof.
  intros Hscan Hreply Hlen HT H1 swapped.
  unfold route_minutes in HT.
  destruct (fdiv_int (osrm_duration route) 3600) as [h|] eqn:Eh; cbn [bind] in HT;
    [|discriminate].
  destruct (fmul_int h 60) as [m|] eqn:Em; cbn [bind] in HT; [|discriminate].
  destruct (fdiv_int_ok (osrm_distance route) 1000) as (y & _ & _ & Ekm);
    [split; [lia|reflexivity]|].
  assert (Hswap : len swapped = len (osrm_coordinates route))
    by (unfold swapped, len; now rewrite length_map).
  assert (Htry : osrm_try (osrm ps pe)
                 = Ok {| route_points := swapped;
                         distance_meters := osrm_distance route;
                         duration_seconds := osrm_duration route;
                         distance_km := SFdiv prec emax (osrm_distance route) y;
                         duration_hours := h |}).
  { rewrite Hreply.
    cbn [osrm_try String.eqb Ascii.eqb Bool.eqb negb orb getitem Z.ltb Z.compare
         Z.to_nat nth_error bind].
    rewrite Ekm. cbn [bind]. rewrite Eh. reflexivity. }
  clearbody swapped.
  destruct (sample_route_to_minutes_total swapped T) as (S & HS & _); try lia.
  destruct (sample_route_to_minutes_ends swapped S T ltac:(lia) H1 HS)
    as (HL & Hfirst & Hlast & Hin).
  unfold RoutingOsrmApi.generate_trajectory. rewrite Hscan.
  destruct ps as [slat slon], pe as [elat elon].
  unfold RoutingOsrmApi.get_osrm_route. rewrite Htry. cbn [bind].
  unfold finish_trajectory. cbn [duration_hours route_points distance_km].
  rewrite Em. cbn [bind]. rewrite HT. cbn [bind]. rewrite HS. cbn [bind].
  eexists. split; [reflexivity|]. cbn [duration_minutes traj_route_points].
  auto.
Qed.

Lemma generate_trajectory_osrm_route_witness :
  let swapped : list point :=
    map (fun c => (snd c, fst c)) (osrm_coordinates example_route) in
  exists t,
    RoutingOsrmApi.generate_trajectory (M := tabulated_math) example_metros osrm_up
                                       eighty "A" "B" None = Ok t /\
    duration_minutes t = 2 /\
    len (traj_route_points t) = 2 + 1 /\
    getitem (traj_route_points t) 0 = getitem swapped 0 /\
    getitem (traj_route_points t) (-1) = getitem swapped (-1) /\
    forall p, In p (traj_route_points t) -> In p swapped.
Proof.
  apply (generate_trajectory_osrm_route
           tabulated_math example_metros osrm_up eighty "A" "B" None
           point_A point_B example_route [] "{...}" 2).
  - reflexivity.
  - reflexivity.
  - split; [reflexivity|vm_compute; discriminate].
  - vm_compute. reflexivity.
  - lia.
Defined.

(** X13.  An OSRM geometry of at most one coordinate is not resampled: the
    trajectory carries it as it is (swapped to [(lat, lon)]), whatever the
    duration, so a single-coordinate route of [T] minutes gives a trajectory
    of one point and not of [T + 1]. *)
Theorem generate_trajectory_short_geometry
        (M : MathLib) (metros : list metro)
        (osrm : point -> point -> osrm_reply) (random_uniform : float)
        (start end_ : string) (avg : option float) (ps pe : point)
        (route : osrm_route) (others : list osrm_route) (repr : string) (T : Z) :
  scan_metros metros start end_ = (Some ps, Some pe) ->
  osrm ps pe = OsrmAnswer "Ok" (route :: others) repr ->
  len (osrm_coordinates route) <= 1 ->
  route_minutes (osrm_duration route) = Ok T ->
  exists t,
    RoutingOsrmApi.generate_trajectory metros osrm random_uniform start end_ avg
    = Ok t /\
    duration_minutes t = T /\
    traj_route_points t = map (fun c => (snd c, fst c)) (osrm_coordinates route).
Proof.
  intros Hscan Hreply Hlen HT.
  unfold route_minutes in HT.
  destruct (fdiv_int (osrm_duration route) 3600) as [h|] eqn:Eh; cbn [bind] in HT;
    [|discriminate].
  destruct (fmul_int h 60) as [m|] eqn:Em; cbn [bind] in HT; [|discriminate].
  destruct (fdiv_int_ok (osrm_distance route) 1000) as (y & _ & _ & Ekm);
    [split; [lia|reflexivity]|].
  set (swapped := map (fun c => (snd c, fst c)) (osrm_coordinates route) : list point).
  assert (Hswap : len swapped <= 1)
    by (unfold swapped, len in *; now rewrite length_map).
  assert (Htry : osrm_try (osrm ps pe)
                 = Ok {| route_points := swapped;
                         distance_meters := osrm_distance route;
                         duration_seconds := osrm_duration route;
                         distance_km := SFdiv prec emax (osrm_distance route) y;
                         duration_hours := h |}).
  { rewrite Hreply.
    cbn [osrm_try String.eqb Ascii.eqb Bool.eqb negb orb getitem Z.ltb Z.compare
         Z.to_nat nth_error bind].
    rewrite Ekm. cbn [bind]. rewrite Eh. reflexivity. }
  clearbody swapped.
  unfold RoutingOsrmApi.generate_trajectory. rewrite Hscan.
  destruct ps as [slat slon], pe as [elat elon].
  unfold RoutingOsrmApi.get_osrm_route. rewrite Htry. cbn [bind].
  unfold finish_trajectory. cbn [duration_hours route_points distance_km].
  rewrite Em. cbn [bind]. rewrite HT. cbn [bind].
  rewrite sample_route_to_minutes_short by assumption. cbn [bind].
  eexists. split; [reflexivity|]. split; reflexivity.
Qed.

Lemma generate_trajectory_short_geometry_witness :
  exists t,
    RoutingOsrmApi.generate_trajectory (M := tabulated_math) example_metros
      (fun _ _ => OsrmAnswer "Ok"
                    [ {| osrm_coordinates := [(snd point_A, fst point_A)];
                         osrm_distance := osrm_distance example_route;
                         osrm_duration := osrm_duration example_route |} ] "{...}")
      eighty "A" "B" None = Ok t /\
    duration_minutes t = 2 /\
    traj_route_points t
    = map (fun c => (snd c, fst c)) [(snd point_A, fst point_A)].
Proof.
  apply (generate_trajectory_short_geometry
           tabulated_math example_metros _ eighty "A" "B" None point_A point_B
           {| osrm_coordinates := [(snd point_A, fst point_A)];
              osrm_distance := osrm_distance example_route;
              osrm_duration := osrm_duration example_route |} [] "{...}" 2).
  - reflexivity.
  - reflexivity.
  - vm_compute. discriminate.
  - vm_compute. reflexivity.
Defined.

(** X14.  The conversion of the route duration to minutes is outside the
    [try] block of the route fetcher: an OSRM answer whose first route has an
    infinite duration makes [generate_trajectory] raise OverflowError in both
    source files, and the fallback of [routing_osrm_api.py] is not taken. *)
Theorem generate_trajectory_infinite_duration
        (M : MathLib) (metros : list metro) (valhalla_url : option string)
        (router_type : string) (osrm : point -> point -> osrm_reply)
        (valhalla : point -> point -> valhalla_reply) (random_uniform : float)
        (start end_ : string) (avg : option float) (ps pe : point)
        (route : osrm_route) (others : list osrm_route) (repr : string) :
  scan_metros metros start end_ = (Some ps, Some pe) ->
  osrm ps pe = OsrmAnswer "Ok" (route :: others) repr ->
  is_infinity (osrm_duration route) = true ->
  RoutingOsrmApi.generate_trajectory metros osrm random_uniform start end_ avg
  = Raise OverflowError /\
  (String.eqb router_type "valhalla" = false ->
   Routing.generate_trajectory metros valhalla_url router_type osrm valhalla
                               random_uniform start end_ avg
   = Raise OverflowError).
Proof.
  intros Hscan Hreply Hinf.
  destruct (fdiv_int_ok (osrm_distance route) 1000) as (y & _ & _ & Ekm);
    [split; [lia|reflexivity]|].
  destruct (fdiv_int_ok (osrm_duration route) 3600) as (h & Eh & Zh & Ehours);
    [split; [lia|reflexivity]|].
  destruct (osrm_duration route) as [s|s| |s m e] eqn:Ed; try discriminate.
  assert (Etry : exists r s',
             osrm_try (osrm ps pe) = Ok r /\ duration_hours r = S754_infinity s').
  { rewrite Hreply.
    cbn [osrm_try String.eqb Ascii.eqb Bool.eqb negb orb getitem Z.ltb Z.compare
         Z.to_nat nth_error bind].
    rewrite Ekm. cbn [bind]. rewrite Ed, Ehours. cbn [bind].
    destruct (float_of_int_exact 3600) as (mk & ek & Hk & _);
      [split; [lia|reflexivity]|].
    rewrite Hk in Eh. inversion Eh; subst h.
    eexists. eexists. split; [reflexivity|]. cbn. reflexivity. }
  destruct Etry as (r & s' & Hr & Hh).
  assert (Hfin : forall used,
             finish_trajectory start end_
               match avg with Some v => v | None => random_uniform end r used
             = Raise OverflowError).
  { intros used. unfold finish_trajectory, fmul_int. rewrite Hh.
    destruct (float_of_int_exact 60) as (mk & ek & -> & _);
      [split; [lia|reflexivity]|].
    reflexivity. }
  destruct ps as [slat slon], pe as [elat elon]. split.
  - unfold RoutingOsrmApi.generate_trajectory. rewrite Hscan.
    unfold RoutingOsrmApi.get_osrm_route. rewrite Hr. cbn [bind]. apply Hfin.
  - intros Hrt. unfold Routing.generate_trajectory. rewrite Hscan, Hrt.
    unfold Routing.get_osrm_route. rewrite Hr. cbn [bind]. apply Hfin.
Qed.

Lemma generate_trajectory_infinite_duration_witness :
  RoutingOsrmApi.generate_trajectory (M := tabulated_math) example_metros
    (fun _ _ => OsrmAnswer "Ok"
                  [ {| osrm_coordinates := osrm_coordinates example_route;
                       osrm_distance := osrm_distance example_route;
                       osrm_duration := S754_infinity false |} ] "{...}")
    eighty "A" "B" None
  = Raise OverflowError /\
  (String.eqb "osrm" "valhalla" = false ->
   Routing.generate_trajectory example_metros None "osrm"
     (fun _ _ => OsrmAnswer "Ok"
                   [ {| osrm_coordinates := osrm_coordinates example_route;
                        osrm_distance := osrm_distance example_route;
                        osrm_duration := S754_infinity false |} ] "{...}")
     valhalla_down eighty "A" "B" None
   = Raise OverflowError).
Proof.
  apply (generate_trajectory_infinite_duration
           tabulated_math example_metros None "osrm" _ valhalla_down eighty
           "A" "B" None point_A point_B
           {| osrm_coordinates := osrm_coordinates example_route;
              osrm_distance := osrm_distance example_route;
              osrm_duration := S754_infinity false |} [] "{...}").
  - reflexivity.
  - reflexivity.
  - reflexivity.
Defined.

(* ===================================================================== *)
(** * Batch classification *)
(* ===================================================================== *)









Section BatchGeocodeFacts.
Variables str_lower str_upper : string -> string.
Variable nominatim : Z -> point -> http_reply.
Variable time_sleep : float -> result unit.


End BatchGeocodeFacts.





(* ===================================================================== *)
(** * Point-in-polygon classification *)
(* ===================================================================== *)

Section SpatialFacts.
Variable G : Type.
Variable contains : G -> float -> float -> result bool.

Lemma first_containing_skip before rows lon lat :
  (forall row, In row before -> contains (row_geometry row) lon lat = Ok false) ->
  first_containing G contains (before ++ rows) lon lat
  = first_containing G contains rows lon lat.
Proof.
  induction before as [|row before IH]; intros H; [reflexivity|].
  cbn [app first_containing]. rewrite H by now left. cbn [bind].
  apply IH. intros. apply H. now right.
Qed.

Lemma batch_spatial_analysis_map states_gdf coordinates :
  batch_spatial_analysis G contains states_gdf coordinates
  = map_result (fun p => get_state_for_coordinates G contains states_gdf
                           (fst p) (snd p))
               coordinates.
Proof.
  unfold batch_spatial_analysis. destruct states_gdf as [rows|].
  - rewrite (for_each_ext _
               (fun states p =>
                  state <- get_state_for_coordinates G contains (Some rows)
                             (fst p) (snd p) ;;
                  Ok (states ++ [state]))).
    + rewrite for_each_append. now destruct (map_result _ _).
    + intros states [lat lon] _. reflexivity.
  - induction coordinates as [|p coordinates IH]; [reflexivity|].
    cbn [Datatypes.length repeat map_result]. rewrite <- IH. reflexivity.
Qed.
End SpatialFacts.

(** X17.  [get_state_for_coordinates] returns the name of the first row, in
    the order of the boundary set, whose geometry contains the point (and
    ['UNKNOWN'] if that row has no name): rows after it are not looked at,
    even when they contain the point too. *)
Theorem get_state_for_coordinates_first_match
        (G : Type) (contains : G -> float -> float -> result bool)
        (before after : list (state_row G)) (row : state_row G)
        (lat lon : float) :
  (forall r, In r before -> contains (row_geometry r) lon lat = Ok false) ->
  contains (row_geometry row) lon lat = Ok true ->
  get_state_for_coordinates G contains (Some (before ++ row :: after)) lat lon
  = Ok match row_state_name row with
       | Some name => name
       | None => "UNKNOWN"%string
       end.
Proof.
  intros Hb Hr. unfold get_state_for_coordinates.
  rewrite first_containing_skip by assumption.
  cbn [first_containing]. now rewrite Hr.
Qed.

Lemma get_state_for_coordinates_first_match_witness :
  get_state_for_coordinates (list point) region_contains
    (Some ([ {| row_geometry := [point_B];
                row_state_name := Some "New Jersey"%string |} ]
           ++ {| row_geometry := [point_A; point_C];
                 row_state_name := Some "Pennsylvania"%string |}
           :: [ {| row_geometry := [point_A; point_D];
                   row_state_name := Some "Delaware"%string |} ]))
    (fst point_A) (snd point_A)
  = Ok match Some "Pennsylvania"%string with
       | Some name => name
       | None => "UNKNOWN"%string
       end.
Proof.
  apply (get_state_for_coordinates_first_match (list point) region_contains
           [ {| row_geometry := [point_B];
                row_state_name := Some "New Jersey"%string |} ]
           [ {| row_geometry := [point_A; point_D];
                row_state_name := Some "Delaware"%string |} ]
           {| row_geometry := [point_A; point_C];
              row_state_name := Some "Pennsylvania"%string |}
           (fst point_A) (snd point_A)).
  - intros r [<-|[]]. reflexivity.
  - reflexivity.
Defined.

(** X18.  Whatever [get_state_for_coordinates] returns is ['UNKNOWN'] or the
    name of a row of the boundary set whose geometry contains the point; in
    particular a point that no geometry contains, or a missing boundary set,
    gives ['UNKNOWN']. *)
Theorem get_state_for_coordinates_result
        (G : Type) (contains : G -> float -> float -> result bool)
        (states_gdf : option (list (state_row G))) (lat lon : float)
        (state : string) :
  get_state_for_coordinates G contains states_gdf lat lon = Ok state ->
  state = "UNKNOWN"%string \/
  exists rows row,
    states_gdf = Some rows /\ In row rows /\
    contains (row_geometry row) lon lat = Ok true /\
    row_state_name row = Some state.
Proof.
  unfold get_state_for_coordinates. destruct states_gdf as [rows|].
  - intros H.
    assert (Hgoal : state = "UNKNOWN"%string \/
                    exists row, In row rows /\
                                contains (row_geometry row) lon lat = Ok true /\
                                row_state_name row = Some state).
    { induction rows as [|row rows IH]; cbn [first_containing] in H.
      - left. now inversion H.
      - destruct (contains (row_geometry row) lon lat) as [[|]|] eqn:E;
          cbn [bind] in H; [| |discriminate].
        + destruct (row_state_name row) as [name|] eqn:En; inversion H; subst.
          * right. exists row. split; [now left|]. auto.
          * now left.
        + destruct (IH H) as [Hu|(r & Hin & Hc & Hn)]; [now left|].
          right. exists r. split; [now right|]. auto. }
    destruct Hgoal as [Hu|(row & Hin & Hc & Hn)]; [now left|].
    right. exists rows, row. auto.
  - intros H. left. now inversion H.
Qed.

Lemma get_state_for_coordinates_result_witness :
  "Pennsylvania"%string = "UNKNOWN"%string \/
  exists rows row,
    Some example_states = Some rows /\ In row rows /\
    region_contains (row_geometry row) (snd point_C) (fst point_C) = Ok true /\
    row_state_name row = Some "Pennsylvania"%string.
Proof.
  apply (get_state_for_coordinates_result (list point) region_contains
           (Some example_states) (fst point_C) (snd point_C) "Pennsylvania").
  reflexivity.
Defined.

(** X19.  [batch_spatial_analysis] classifies each coordinate as
    [get_state_for_coordinates] does, in order, so it returns one state per
    coordinate; without a boundary set it returns ['UNKNOWN'] for each. *)
Theorem batch_spatial_analysis_spec
        (G : Type) (contains : G -> float -> float -> result bool)
        (states_gdf : option (list (state_row G))) (coordinates : list point) :
  batch_spatial_analysis G contains states_gdf coordinates
  = map_result (fun p => get_state_for_coordinates G contains states_gdf
                           (fst p) (snd p))
               coordinates /\
  (forall states,
      batch_spatial_analysis G contains states_gdf coordinates = Ok states ->
      List.length states = List.length coordinates) /\
  (states_gdf = None ->
   batch_spatial_analysis G contains states_gdf coordinates
   = Ok (repeat "UNKNOWN"%string (List.length coordinates))).
Proof.
  split; [apply batch_spatial_analysis_map|]. split.
  - intros states H. rewrite batch_spatial_analysis_map in H.
    now apply map_result_length in H.
  - intros ->. reflexivity.
Qed.

(* ===================================================================== *)
(** * One speed per minute *)
(* ===================================================================== *)

(** X20.  On the fallback path of [routing_osrm_api.py] the trajectory of
    [T] minutes gives, when [calculate_per_minute_speeds] returns, exactly
    [T] speeds: one per minute. *)
Theorem fallback_trajectory_speed_count
        (M : MathLib) (metros : list metro)
        (osrm : point -> point -> osrm_reply) (random_uniform : float)
        (start end_ : string) (avg : option float)
        (start_lat start_lon end_lat end_lon : float) (e : exn) (d : float) (T : Z) :
  scan_metros metros start end_ = (Some (start_lat, start_lon), Some (end_lat, end_lon)) ->
  osrm_try (osrm (start_lat, start_lon) (end_lat, end_lon)) = Raise e ->
  haversine_distance start_lat start_lon end_lat end_lon = Ok d ->
  fallback_minutes d = Ok T -> 0 <= T < 2 ^ 53 ->
  exists t,
    RoutingOsrmApi.generate_trajectory metros osrm random_uniform start end_ avg
    = Ok t /\
    forall speeds,
      calculate_per_minute_speeds (traj_route_points t) = Ok speeds ->
      len speeds = duration_minutes t.
Proof.
  intros Hscan Hfail Hd HT HB.
  destruct (generate_trajectory_fallback_path metros osrm random_uniform
              start end_ avg _ _ _ _ e d T Hscan Hfail Hd HT HB)
    as (pts & S & t & _ & _ & _ & HlenS & Ht & _ & _ & _ & H4 & H5).
  exists t. split; [exact Ht|]. intros speeds Hs.
  rewrite calculate_per_minute_speeds_map in Hs.
  apply map_result_length in Hs. rewrite py_range_length in Hs.
  rewrite H5, H4 in *. unfold len in *. unfold point in *. lia.
Qed.

Lemma fallback_trajectory_speed_count_witness :
  exists t,
    RoutingOsrmApi.generate_trajectory (M := tabulated_math) example_metros
      osrm_down eighty "A" "B" None = Ok t /\
    forall speeds,
      calculate_per_minute_speeds (M := tabulated_math) (traj_route_points t)
      = Ok speeds ->
      len speeds = duration_minutes t.
Proof.
  apply (fallback_trajectory_speed_count
           tabulated_math example_metros osrm_down eighty "A" "B" None
           (fst point_A) (snd point_A) (fst point_B) (snd point_B)
           (RequestException "Connection timed out") distance_AB 63).
  - reflexivity.
  - reflexivity.
  - vm_compute. reflexivity.
  - vm_compute. reflexivity.
  - split; [lia|reflexivity].
Defined.

(* ===================================================================== *)
(** * Further properties of reverse geocoding *)
(* ===================================================================== *)

(** X21.  A non-empty state string in the address decides the answer alone:
    the country code is not read, so even a malformed one does no harm.  The
    result is the code of the table if the lower-cased state is a key, and
    the state string otherwise. *)
Theorem reverse_geocode_state_uses_state
        (str_lower str_upper : string -> string)
        (body address : list (string * json)) (state : string) :
  lookup "address" body = Some (JDict address) ->
  lookup "state" address = Some (JStr state) ->
  state <> ""%string ->
  reverse_geocode_state str_lower str_upper (HttpBody (JDict body))
  = match lookup (str_lower state) state_mapping with
    | Some code => code
    | None => state
    end.
Proof.
  intros Ha Hs Hne. apply String.eqb_neq in Hne.
  unfold reverse_geocode_state, reverse_geocode_try, geocoded_state.
  cbn [dict_get]. rewrite Ha. cbn [bind dict_get]. rewrite Hs.
  cbn [bind truthy]. rewrite Hne. cbn [negb bind].
  destruct (lookup (str_lower state) state_mapping); [reflexivity|].
  now rewrite Hne.
Qed.

Lemma reverse_geocode_state_uses_state_witness :
  reverse_geocode_state lower_ascii upper_ascii georgia_reply
  = match lookup (lower_ascii "Georgia") state_mapping with
    | Some code => code
    | None => "Georgia"%string
    end.
Proof.
  apply (reverse_geocode_state_uses_state lower_ascii upper_ascii
           [("address"%string,
             JDict [("country_code"%string, JNum (Int 1));
                    ("state"%string, JStr "Georgia")])]
           [("country_code"%string, JNum (Int 1));
            ("state"%string, JStr "Georgia")]
           "Georgia").
  - reflexivity.
  - reflexivity.
  - discriminate.
Defined.

(** X22.  An answer that is not a JSON object, or an object without the key
    ['address'], gives ['UNKNOWN'] (the case mappings keep the empty string
    empty). *)
Theorem reverse_geocode_state_no_address
        (str_lower str_upper : string -> string) (data : json) :
  str_lower EmptyString = EmptyString -> str_upper EmptyString = EmptyString ->
  match data with
  | JDict body => lookup "address" body = None
  | _ => True
  end ->
  reverse_geocode_state str_lower str_upper (HttpBody data) = "UNKNOWN"%string.
Proof.
  intros Hl Hu H. unfold reverse_geocode_state, reverse_geocode_try, geocoded_state.
  destruct data; try reflexivity.
  cbn [dict_get]. rewrite H. cbn [bind dict_get lookup truthy].
  rewrite Hu. cbn [bind]. rewrite Hl. reflexivity.
Qed.

Lemma reverse_geocode_state_no_address_witness :
  reverse_geocode_state lower_ascii upper_ascii
    (HttpBody (JDict [("error"%string, JStr "Unable to geocode")]))
  = "UNKNOWN"%string.
Proof.
  apply (reverse_geocode_state_no_address lower_ascii upper_ascii
           (JDict [("error"%string, JStr "Unable to geocode")])).
  - reflexivity.
  - reflexivity.
  - reflexivity.
Defined.
